(** * mistletoe.block_token: block-level tokens

    A shallow embedding of [mistletoe/block_token.py] and the properties of
    its constructors and matchers.

    Python values are modelled as follows.
    - [str] is [string]; a character is a code point below 256, so the
      strings of the model are the Python strings over U+0000..U+00FF.  The
      character classes used by [str.strip] and [str.isdigit] are the ones
      Python assigns to these code points.
    - [int] is [Z]; [None] is the [None] of an option type.
    - a Python list is a [list]; a constructor that mutates the list it is
      given returns the contents the list has afterwards.
    - a raised exception is the [Raise] outcome of [result].
    - a generator is modelled by the list it yields when it is consumed. *)

From Stdlib Require Import ZArith Lia Ascii.
From stdpp Require Import base option list gmap strings.

Local Open Scope Z_scope.

(** ** Exceptions *)

Inductive exn := IndexError | ValueError | AttributeError.

Inductive result (A : Type) : Type :=
| Ok (a : A)
| Raise (e : exn).
Arguments Ok {A} a.
Arguments Raise {A} e.

Definition bind {A B} (m : result A) (k : A -> result B) : result B :=
  match m with
  | Ok a => k a
  | Raise e => Raise e
  end.

#[global] Instance result_ret : MRet result := fun _ a => Ok a.
#[global] Instance result_bind : MBind result := fun _ _ k m => bind m k.
#[global] Instance result_fmap : FMap result := fun _ _ f m =>
  match m with
  | Ok a => Ok (f a)
  | Raise e => Raise e
  end.

(** A list comprehension whose body may raise. *)
Fixpoint traverse {A B} (f : A -> result B) (l : list A) : result (list B) :=
  match l with
  | [] => Ok []
  | x :: l' => y ← f x; ys ← traverse f l'; Ok (y :: ys)
  end.

(** ** Python built-ins on sequences *)

(** [l[i]], negative indices counted from the end. *)
Definition getitem {A} (l : list A) (i : Z) : result A :=
  let len := Z.of_nat (length l) in
  let j := if i <? 0 then len + i else i in
  if (j <? 0) || (len <=? j) then Raise IndexError
  else match l !! Z.to_nat j with
       | Some x => Ok x
       | None => Raise IndexError
       end.

(** The bound of a slice: [None] is an omitted bound. *)
Definition slice_bound (len : Z) (dflt : Z) (i : option Z) : nat :=
  match i with
  | None => Z.to_nat dflt
  | Some i => Z.to_nat (if i <? 0 then Z.max 0 (len + i) else Z.min i len)
  end.

(** [l[start:stop]] *)
Definition slice {A} (l : list A) (start stop : option Z) : list A :=
  let len := Z.of_nat (length l) in
  let a := slice_bound len 0 start in
  let b := slice_bound len len stop in
  take (b - a)%nat (drop a l).

(** [l.pop(i)] for [0 <= i]: the removed element and what is left. *)
Definition pop {A} (l : list A) (i : nat) : result (A * list A) :=
  match l !! i with
  | Some x => Ok (x, delete i l)
  | None => Raise IndexError
  end.

(** [l.insert(i, x)] for [0 <= i]; past the end it appends. *)
Definition list_insert_at {A} (i : nat) (x : A) (l : list A) : list A :=
  take i l ++ x :: drop i l.

(** [itertools.zip_longest(la, lb)]: the shorter list is padded, [fa] and
    [fb] standing for the fill value in either position. *)
Fixpoint zip_longest {A B} (fa : A) (fb : B) (la : list A) (lb : list B)
  : list (A * B) :=
  match la with
  | [] => map (fun b => (fa, b)) lb
  | a :: la' =>
      match lb with
      | [] => (a, fb) :: zip_longest fa fb la' []
      | b :: lb' => (a, b) :: zip_longest fa fb la' lb'
      end
  end.

(** ** Python built-ins on strings *)

Definition chars (s : string) : list ascii := String.list_ascii_of_string s.
Definition str (l : list ascii) : string := String.string_of_list_ascii l.

Definition nl : string := String (Ascii.ascii_of_nat 10) EmptyString.

(** [str.isspace] of one character: U+0009..U+000D, U+001C..U+0020,
    U+0085 and U+00A0. *)
Definition isspace (c : ascii) : bool :=
  let n := Ascii.N_of_ascii c in
  ((9 <=? n) && (n <=? 13) || (28 <=? n) && (n <=? 32)
   || (n =? 133) || (n =? 160))%N.

(** The decimal digits [0]..[9]. *)
Definition isdecimal_char (c : ascii) : bool :=
  let n := Ascii.N_of_ascii c in ((48 <=? n) && (n <=? 57))%N.

(** [str.isdigit] of one character: the decimal digits and the superscript
    digits U+00B2, U+00B3 and U+00B9. *)
Definition isdigit_char (c : ascii) : bool :=
  let n := Ascii.N_of_ascii c in
  (isdecimal_char c || (n =? 178) || (n =? 179) || (n =? 185))%N.

(** [s.isdigit()]: false on the empty string. *)
Definition isdigit (s : string) : bool :=
  match chars s with
  | [] => false
  | cs => forallb isdigit_char cs
  end.

Definition digit_value (c : ascii) : Z :=
  Z.of_N (Ascii.N_of_ascii c) - 48.

(** [int(s)], modelled on the strings the source passes to it: those for
    which [s.isdigit()] holds.  Decimal digits convert; a superscript digit
    is no decimal digit and makes [int] raise ValueError. *)
Definition int (s : string) : result Z :=
  if isdigit s && forallb isdecimal_char (chars s)
  then Ok (fold_left (fun acc c => 10 * acc + digit_value c) (chars s) 0)
  else Raise ValueError.

Definition len (s : string) : Z := Z.of_nat (String.length s).

(** [s.startswith(p)] *)
Fixpoint startswith (s p : string) {struct p} : bool :=
  match p, s with
  | EmptyString, _ => true
  | String a p', String b s' => if Ascii.eqb a b then startswith s' p' else false
  | String _ _, EmptyString => false
  end.

(** [s.startswith((p1, p2, ...))] *)
Definition startswith_any (s : string) (ps : list string) : bool :=
  existsb (startswith s) ps.

Fixpoint str_drop (n : nat) (s : string) : string :=
  match n, s with
  | O, _ => s
  | S n', String _ s' => str_drop n' s'
  | S _, EmptyString => EmptyString
  end.

(** [s[start:stop]] *)
Definition str_slice (s : string) (start stop : option Z) : string :=
  str (slice (chars s) start stop).

(** [s[i]] *)
Definition str_getitem (s : string) (i : Z) : result ascii :=
  getitem (chars s) i.

(** The first occurrence of [sep] in [s]: the text before it and the text
    after it. *)
Fixpoint cut (sep s : string) : option (string * string) :=
  if startswith s sep then Some (EmptyString, str_drop (String.length sep) s)
  else match s with
       | EmptyString => None
       | String c s' =>
           match cut sep s' with
           | Some (a, b) => Some (String c a, b)
           | None => None
           end
       end.

(** [s.find(sub)]: the index of the first occurrence, or -1. *)
Fixpoint find (s sub : string) : Z :=
  if startswith s sub then 0
  else match s with
       | EmptyString => -1
       | String _ s' => let i := find s' sub in if i =? -1 then -1 else i + 1
       end.

(** [s.split(sep, maxsplit)] for a non-empty [sep] and [0 <= maxsplit]. *)
Fixpoint split_max (s sep : string) (maxsplit : nat) : list string :=
  match maxsplit with
  | O => [s]
  | S n =>
      match cut sep s with
      | Some (a, b) => a :: split_max b sep n
      | None => [s]
      end
  end.

(** [s.split(sep)] for a non-empty [sep]: a string has no more occurrences
    of [sep] than it has characters. *)
Definition split (s sep : string) : list string :=
  split_max s sep (String.length s).

Fixpoint lstrip (s : string) : string :=
  match s with
  | EmptyString => EmptyString
  | String c s' => if isspace c then lstrip s' else s
  end.

Fixpoint rstrip (s : string) : string :=
  match s with
  | EmptyString => EmptyString
  | String c s' =>
      match rstrip s' with
      | EmptyString => if isspace c then EmptyString else String c EmptyString
      | r => String c r
      end
  end.

(** [s.strip()] *)
Definition strip (s : string) : string := rstrip (lstrip s).

(** [sep.join(l)] *)
Fixpoint join (sep : string) (l : list string) : string :=
  match l with
  | [] => EmptyString
  | [x] => x
  | x :: l' => x +:+ sep +:+ join sep l'
  end.

(** [s.replace(a, b)] for single characters [a] and [b]. *)
Fixpoint replace_char (a b : ascii) (s : string) : string :=
  match s with
  | EmptyString => EmptyString
  | String c s' => String (if Ascii.eqb c a then b else c) (replace_char a b s')
  end.

(** ** Tokens

    The inline tokenizer [span_token.tokenize_inner] lies outside this
    module: a token that hands its text to it holds that call.  [RawText]
    is the span token of a code block. *)

Inductive span :=
| tokenize_inner (content : string)
| RawText (content : string).

(** [level] is [None] when the constructor leaves the attribute unset. *)
Record Heading := mkHeading {
  Heading_level : option Z;
  Heading_children : span }.

(** The children of a quote are [tokenize(content)], called without a root;
    the token holds the lines it hands over. *)
Record Quote := mkQuote { Quote_content : list string }.

Record Paragraph := mkParagraph { Paragraph_children : span }.

Record BlockCode := mkBlockCode {
  BlockCode_language : string;
  BlockCode_children : span }.

(** [List] and [ListItem]: the children of a list are items and lists. *)
#[local] Set Warnings "-register-all".
Inductive ListToken :=
| ListItem (children : span)
| List (children : list ListToken) (start : option Z).

Definition List_start (t : ListToken) : option Z :=
  match t with
  | List _ start => start
  | ListItem _ => None
  end.

Definition List_children (t : ListToken) : list ListToken :=
  match t with
  | List children _ => children
  | ListItem _ => []
  end.

(** An alignment is [None], [0] or [1]. *)
Record TableCell := mkTableCell {
  TableCell_align : option Z;
  TableCell_children : span }.

(** The children of a row are a generator: the field holds what consuming
    it gives. *)
Record TableRow := mkTableRow {
  TableRow_row_align : list (option Z);
  TableRow_children : result (list TableCell) }.

Record Table := mkTable {
  Table_has_header : bool;
  Table_column_align : list (option Z);
  Table_children : list TableRow }.

Record FootnoteEntry := mkFootnoteEntry {
  FootnoteEntry_key : string;
  FootnoteEntry_value : string }.

Record FootnoteBlock := mkFootnoteBlock {
  FootnoteBlock_children : list FootnoteEntry }.

Record Separator := mkSeparator { Separator_lines : list string }.

(** ** Heading *)

Definition Heading_init (lines : list string) : result Heading :=
  if (length lines =? 1)%nat then
    (* ATX heading *)
    l0 ← getitem lines 0;
    match split_max l0 "# " 1 with
    | [hashes; content] =>
        c0 ← getitem (split_max content " #" 1) 0;
        let content := strip c0 in
        Ok (mkHeading (Some (len hashes + 1)) (tokenize_inner content))
    | _ => Raise ValueError
    end
  else
    (* setext heading *)
    last ← getitem lines (-1);
    c ← str_getitem last 0;
    let level :=
      if Ascii.eqb c "=" then Some 1
      else if Ascii.eqb c "-" then Some 2
      else None in
    let content := join " " (strip <$> slice lines None (Some (-1))) in
    Ok (mkHeading level (tokenize_inner content)).

Definition Heading_match (lines : list string) : result bool :=
  (* ATX heading *)
  atx ← (if (length lines =? 1)%nat
         then l0 ← getitem lines 0;
              Ok (startswith l0 "#" && negb (find l0 "# " =? -1))
         else Ok false);
  if atx : bool then Ok true
  else
    (* setext heading *)
    if (1 <? length lines)%nat then
      last ← getitem lines (-1);
      Ok (startswith last "---" || startswith last "===")
    else Ok false.

(** ** Quote *)

Definition Quote_init (lines : list string) : result Quote :=
  let content :=
    (fun line => if startswith line "> " then str_slice line (Some 2) None
                 else line) <$> lines in
  Ok (mkQuote content).

Definition Quote_match (lines : list string) : result bool :=
  l0 ← getitem lines 0;
  Ok (startswith l0 "> ").

(** ** Paragraph *)

Definition Paragraph_init (lines : list string) : result Paragraph :=
  let content :=
    strip (replace_char (Ascii.ascii_of_nat 10) " " (join EmptyString lines)) in
  Ok (mkParagraph (tokenize_inner content)).

(** ** BlockCode *)

Definition BlockCode_init (lines : list string) : result BlockCode :=
  l0 ← getitem lines 0;
  if startswith l0 "```" then
    let content := join EmptyString (slice lines (Some 1) (Some (-1))) in
    let language := str_slice (strip l0) (Some 3) None in
    Ok (mkBlockCode language (RawText content))
  else
    let content :=
      join EmptyString ((fun line => str_slice line (Some 4) None) <$> lines) in
    Ok (mkBlockCode EmptyString (RawText content)).

Definition BlockCode_match (lines : list string) : result bool :=
  l0 ← getitem lines 0;
  fence ← (if startswith l0 "```"
           then last ← getitem lines (-1); Ok (String.eqb last ("```" +:+ nl))
           else Ok false);
  if fence : bool then Ok true
  else Ok (forallb (fun line => startswith line "    ") lines).

(** ** Separator *)

Definition Separator_acceptable_patterns : list string :=
  ["---" +:+ nl; "* * *" +:+ nl; "***" +:+ nl; "===" +:+ nl].

Definition Separator_init (lines : list string) : result Separator :=
  Ok (mkSeparator lines).

Definition Separator_match (lines : list string) : result bool :=
  match lines with
  | [l0] => Ok (existsb (String.eqb l0) Separator_acceptable_patterns)
  | _ => Ok false
  end.

(** ** FootnoteBlock and FootnoteEntry *)

Definition FootnoteEntry_init (line : string) : result FootnoteEntry :=
  match split (strip line) "]:" with
  | [key; value] =>
      Ok (mkFootnoteEntry (str_slice key (Some 1) None) (strip value))
  | _ => Raise ValueError
  end.

Definition FootnoteBlock_init (lines : list string) : result FootnoteBlock :=
  children ← traverse FootnoteEntry_init lines;
  Ok (mkFootnoteBlock children).

Definition FootnoteBlock_match (lines : list string) : result bool :=
  Ok (forallb (fun line =>
                 let content := strip line in
                 startswith content "[" && negb (find content "]:" =? -1))
              lines).

(** ** List and ListItem *)

Definition ListItem_init (lines : list string) : ListToken :=
  let line := join " " (strip <$> lines) in
  let content :=
    match split_max line " " 1 !! 1%nat with
    | Some rest => strip rest
    | None => EmptyString      (* except IndexError *)
    end in
  ListItem (tokenize_inner content).

(** The first field of [line.split(' ', 1)]; a split is never empty. *)
Definition leader_of (line : string) : string :=
  default EmptyString (head (split_max line " " 1)).

Definition List_has_valid_leader (line : string) : bool :=
  startswith_any line ["+ "; "- "; "* "]
  || isdigit (str_slice (leader_of line) None (Some (-1))).

Definition List_match (lines : list string) : result bool :=
  l0 ← getitem lines 0;
  Ok (List_has_valid_leader (strip l0)).

(** The state of [build_list]: the two variables its helper
    [clear_buffer] shares with it. *)
Record build_state := mkState {
  line_buffer : list string;
  nested : bool }.

Definition buffer_append (line : string) (st : build_state) : build_state :=
  mkState (line_buffer st ++ [line]) (nested st).

(** [List.__init__] and [List.build_list] call each other: a nested list is
    built from the buffer of the enclosing one.  The recursion is bounded by
    [fuel]; [None] is the outcome of a computation that ran out of it. *)
Section build_list.

(** The constructor [List], as far as the fuel reaches. *)
Variable List_ : list string -> option (result ListToken).

(** [clear_buffer()]: the tokens it yields and the state it leaves. *)
Definition clear_buffer (st : build_state)
  : option (result (list ListToken * build_state)) :=
  match line_buffer st with
  | [] => Some (Ok ([], st))
  | _ =>
      if nested st then
        match List_ (line_buffer st) with
        | None => None
        | Some (Raise e) => Some (Raise e)
        | Some (Ok t) => Some (Ok ([t], mkState [] false))
        end
      else Some (Ok ([ListItem_init (line_buffer st)], mkState [] false))
  end.

(** One turn of the loop [for line in lines]. *)
Definition build_step (st : build_state) (line : string)
  : option (result (list ListToken * build_state)) :=
  if List_has_valid_leader line then
    match clear_buffer st with
    | Some (Ok (out, st')) => Some (Ok (out, buffer_append line st'))
    | r => r
    end
  else if startswith line "    " then
    let line := str_slice line (Some 4) None in
    if List_has_valid_leader line then
      if negb (nested st) then
        match clear_buffer st with
        | Some (Ok (out, st')) =>
            Some (Ok (out, mkState (line_buffer st' ++ [line]) true))
        | r => r
        end
      else Some (Ok ([], mkState (line_buffer st ++ [line]) true))
    else Some (Ok ([], buffer_append line st))
  else Some (Ok ([], buffer_append line st)).

(** The loop, then the last [clear_buffer()]. *)
Fixpoint build_loop (st : build_state) (lines : list string)
  : option (result (list ListToken)) :=
  match lines with
  | [] =>
      match clear_buffer st with
      | Some (Ok (out, _)) => Some (Ok out)
      | Some (Raise e) => Some (Raise e)
      | None => None
      end
  | line :: lines' =>
      match build_step st line with
      | Some (Ok (out, st')) =>
          match build_loop st' lines' with
          | Some (Ok rest) => Some (Ok (out ++ rest))
          | r => r
          end
      | Some (Raise e) => Some (Raise e)
      | None => None
      end
  end.

Definition List_build_list (lines : list string)
  : option (result (list ListToken)) :=
  build_loop (mkState [] false) lines.

End build_list.

(** The attribute [start], read from the first line. *)
Definition List_read_start (lines : list string) : result (option Z) :=
  l0 ← getitem lines 0;
  let leader := leader_of l0 in
  if isdigit (str_slice leader None (Some (-1)))
  then n ← int (str_slice leader None (Some (-1))); Ok (Some n)
  else Ok None.

Fixpoint List_init_fuel (fuel : nat) (lines : list string)
  : option (result ListToken) :=
  match fuel with
  | O => None
  | S fuel' =>
      match List_build_list (List_init_fuel fuel') lines with
      | None => None
      | Some (Raise e) => Some (Raise e)
      | Some (Ok children) =>
          Some (start ← List_read_start lines; Ok (List children start))
      end
  end.

(** The characters of all lines.  A nested list is built from lines that
    have fewer of them than the lines of the list around it, so fuel beyond
    this number is never used up ([List_init_fuel_enough]). *)
Definition total_chars (lines : list string) : nat :=
  sum_list_with String.length lines.

(** [List.__init__].  The last branch is never taken. *)
Definition List_init (lines : list string) : result ListToken :=
  match List_init_fuel (S (total_chars lines)) lines with
  | Some r => r
  | None => Raise IndexError
  end.

(** ** Table, TableRow and TableCell *)

Definition TableCell_init (content : string) (align : option Z) : TableCell :=
  mkTableCell align (tokenize_inner content).

(** [line[1:-2].split('|')] *)
Definition TableRow_cells (line : string) : list string :=
  split (str_slice line (Some 1) (Some (-2))) "|".

(** The fill value of [zip_longest(cells, self.row_align)] is [None], for a
    missing cell and for a missing alignment alike. *)
Definition TableRow_init (line : string) (row_align : option (list (option Z)))
  : TableRow :=
  let row_align := match row_align with None => [None] | Some a => a end in
  let cells := TableRow_cells line in
  mkTableRow row_align
    (traverse (fun p : option string * option Z =>
                 match p.1 with
                 | Some cell => Ok (TableCell_init (strip cell) p.2)
                 | None => Raise AttributeError     (* None.strip() *)
                 end)
              (zip_longest None None (Some <$> cells) row_align)).

Definition Table_split_delimiter (delimiter : string) : list string :=
  strip <$> split (str_slice delimiter (Some 1) (Some (-2))) "|".

Definition Table_parse_align (column : string) : option Z :=
  if String.eqb (str_slice column None (Some 4)) ":---"
     && String.eqb (str_slice column (Some (-4)) None) "---:"
  then Some 0
  else if String.eqb (str_slice column (Some (-4)) None) "---:"
  then Some 1
  else None.

(** [Table.__init__] removes the delimiter row from the list it is given:
    the second component is the contents of that list afterwards. *)
Definition Table_init (lines : list string) : result (Table * list string) :=
  l1 ← getitem lines 1;
  let has_header := negb (find l1 "---" =? -1) in
  if has_header then
    p ← pop lines 1;
    let column_align := Table_parse_align <$> Table_split_delimiter p.1 in
    let lines := p.2 in
    Ok (mkTable has_header column_align
          ((fun line => TableRow_init line (Some column_align)) <$> lines),
        lines)
  else
    let column_align := [None] in
    Ok (mkTable has_header column_align
          ((fun line => TableRow_init line (Some column_align)) <$> lines),
        lines).

Fixpoint Table_match (lines : list string) : result bool :=
  match lines with
  | [] => Ok true
  | line :: lines' =>
      c0 ← str_getitem line 0;
      if negb (Ascii.eqb c0 "|") then Ok false
      else
        c1 ← str_getitem line (-2);
        if negb (Ascii.eqb c1 "|") then Ok false
        else Table_match lines'
  end.

(** ** The registry of token classes *)

Inductive token_cls :=
| Heading_cls | Quote_cls | BlockCode_cls | Separator_cls | List_cls
| Table_cls | FootnoteBlock_cls
| Custom_cls (name : string).

#[global] Instance token_cls_eq_dec : EqDecision token_cls.
Proof. solve_decision. Defined.

Definition _token_types : list token_cls :=
  [Heading_cls; Quote_cls; BlockCode_cls; Separator_cls; List_cls;
   Table_cls; FootnoteBlock_cls].

(** [l.remove(x)]: the first element equal to [x] goes; ValueError when
    there is none. *)
Fixpoint list_remove {A} `{EqDecision A} (x : A) (l : list A)
  : result (list A) :=
  match l with
  | [] => Raise ValueError
  | y :: l' =>
      if decide (y = x) then Ok l'
      else r ← list_remove x l'; Ok (y :: r)
  end.

(** The registry is a module-level list: the two functions take its
    contents and return the contents it has afterwards. *)
Definition add_token (cls : token_cls) (types : list token_cls)
  : list token_cls :=
  list_insert_at 1 cls types.

Definition remove_token (cls : token_cls) (types : list token_cls)
  : result (list token_cls) :=
  list_remove cls types.


(** ** The dispatch driver and Document *)






Section Driver.

(** Modelled from the spec: the rule of [block_tokenizer] that cuts the
    lines into runs.  The sources do not have it and the spec leaves it
    to each block type, so it is a parameter: [normalize lines] are the
    runs of [lines], in order. *)
Variable normalize : list string -> list (list string).

(** The matcher of a class registered with [add_token]; such a class is
    not of this module. *)
Variable custom_match : string -> list string -> result bool.










End Driver.

(** ** Definitions the properties are stated with *)

(** The number of [#] characters a line starts with. *)
Fixpoint leading_hashes (s : string) : Z :=
  match s with
  | String c s' => if Ascii.eqb c "#" then 1 + leading_hashes s' else 0
  | EmptyString => 0
  end.

(** [n] hashes in front of [s]. *)
Fixpoint hashes (n : nat) (s : string) : string :=
  match n with
  | O => s
  | S n' => String "#" (hashes n' s)
  end.

(** U+00B2, a digit for [str.isdigit] and none for [int]. *)
Definition superscript_two : ascii := Ascii.ascii_of_nat 178.


(** What a state can still hand to a nested list: the characters of its
    buffer, and the four a nested buffer has lost. *)
Definition weight (st : build_state) : nat :=
  (total_chars (line_buffer st) + (if nested st then 4 else 0))%nat.


(** A line that continues the item above it: no leader, and not indented
    by four spaces. *)
Definition continuation (line : string) : Prop :=
  List_has_valid_leader line = false /\ startswith line "    " = false.

(** The lines of an item: a line with a leader, then its continuation
    lines. *)
Definition item_lines (g : string * list string) : list string := g.1 :: g.2.

Definition is_item (g : string * list string) : Prop :=
  List_has_valid_leader g.1 = true /\ Forall continuation g.2.

(** What [clear_buffer] yields for a buffer that is not tagged nested. *)
Definition flushed (buffer : list string) : list ListToken :=
  match buffer with
  | [] => []
  | _ => [ListItem_init buffer]
  end.

(** An outcome of the loop with [out] yielded before it. *)
Definition yielded_before (out : list ListToken)
    (r : option (result (list ListToken))) : option (result (list ListToken)) :=
  match r with
  | Some (Ok rest) => Some (Ok (out ++ rest))
  | _ => r
  end.

(** The items yielded while the lines of [groups] are read, and the buffer
    left at the end. *)
Fixpoint read_items (buffer : list string) (groups : list (string * list string))
  : list ListToken * list string :=
  match groups with
  | [] => ([], buffer)
  | g :: groups' =>
      let r := read_items (item_lines g) groups' in (flushed buffer ++ r.1, r.2)
  end.

(** What the loop yields when it flushes a buffer tagged nested and then
    goes on as [k]: the list built from the buffer comes first, and an
    exception of its constructor ends the loop. *)
Definition nested_before (r : option (result ListToken))
    (k : option (result (list ListToken))) : option (result (list ListToken)) :=
  match r with
  | None => None
  | Some (Raise e) => Some (Raise e)
  | Some (Ok t) => yielded_before [t] k
  end.

(** A marker: some characters, none of them white space. *)
Definition is_marker (marker : string) : Prop :=
  marker <> EmptyString /\ Forall (fun c => isspace c = false) (chars marker).

(** * Properties *)

(** ** Sequences *)

Lemma getitem_last {A} (pre : list A) (x : A) :
  getitem (pre ++ [x]) (-1) = Ok x.
Proof.
  unfold getitem. rewrite length_app. simpl length.
  replace (-1 <? 0) with true by reflexivity.
  replace (Z.of_nat (length pre + 1) + -1) with (Z.of_nat (length pre)) by lia.
  destruct (Z.ltb_spec (Z.of_nat (length pre)) 0) as [?|_]; [lia|].
  destruct (Z.leb_spec (Z.of_nat (length pre + 1)) (Z.of_nat (length pre)))
    as [?|_]; [lia|].
  simpl. rewrite Nat2Z.id, lookup_app_r by lia.
  by rewrite Nat.sub_diag.
Qed.

Lemma slice_but_last {A} (pre : list A) (x : A) :
  slice (pre ++ [x]) None (Some (-1)) = pre.
Proof.
  unfold slice, slice_bound. rewrite length_app. simpl length.
  replace (-1 <? 0) with true by reflexivity.
  rewrite Z.max_r by lia.
  replace (Z.to_nat (Z.of_nat (length pre + 1) + -1)) with (length pre) by lia.
  simpl. rewrite Nat.sub_0_r. apply take_app_length.
Qed.

Lemma getitem_lookup {A} (l : list A) (i : nat) :
  getitem l (Z.of_nat i) =
  match l !! i with Some x => Ok x | None => Raise IndexError end.
Proof.
  unfold getitem.
  destruct (Z.ltb_spec (Z.of_nat i) 0) as [?|_]; [lia|].
  destruct (Z.ltb_spec (Z.of_nat i) 0) as [?|_]; [lia|].
  rewrite Nat2Z.id.
  destruct (Z.leb_spec (Z.of_nat (length l)) (Z.of_nat i)) as [Hle|Hlt]; simpl.
  - rewrite lookup_ge_None_2; [done|lia].
  - done.
Qed.

(** ** The registry *)

Lemma list_remove_insert_at (cls : token_cls) (types : list token_cls) :
  cls ∉ types -> list_remove cls (list_insert_at 1 cls types) = Ok types.
Proof.
  intros Hnotin. destruct types as [|first rest]; simpl.
  - by rewrite decide_True.
  - apply not_elem_of_cons in Hnotin as [Hne _].
    rewrite decide_False by congruence. rewrite drop_0.
    by rewrite decide_True.
Qed.

(** C6: for a class that is not registered, [add_token] puts it at
    position 1, right after [Heading], and [remove_token] of the same class
    then gives back the original registry Heading, Quote, BlockCode,
    Separator, List, Table, FootnoteBlock. *)
Theorem add_token_remove_token_restores (cls : token_cls) :
  cls ∉ _token_types ->
  add_token cls _token_types =
    [Heading_cls; cls; Quote_cls; BlockCode_cls; Separator_cls; List_cls;
     Table_cls; FootnoteBlock_cls]
  /\ remove_token cls (add_token cls _token_types) = Ok _token_types.
Proof.
  intros Hnotin. split; [reflexivity|].
  by apply list_remove_insert_at.
Qed.

Lemma add_token_remove_token_restores_witness :
  add_token (Custom_cls "Mention") _token_types =
    [Heading_cls; Custom_cls "Mention"; Quote_cls; BlockCode_cls;
     Separator_cls; List_cls; Table_cls; FootnoteBlock_cls]
  /\ remove_token (Custom_cls "Mention")
       (add_token (Custom_cls "Mention") _token_types) = Ok _token_types.
Proof.
  apply (add_token_remove_token_restores (Custom_cls "Mention")).
  unfold _token_types. intros Hin.
  repeat (apply elem_of_cons in Hin as [Hin|Hin]; [discriminate Hin|]).
  by apply elem_of_nil in Hin.
Defined.

(** ** Strings *)

Example split_cells : split "a|b||c" "|" = ["a"; "b"; EmptyString; "c"].
Proof. reflexivity. Qed.

Example strip_line : strip ("  - a " +:+ nl) = "- a".
Proof. reflexivity. Qed.

Example slice_row : str_slice ("| a | b |" +:+ nl) (Some 1) (Some (-2)) = " a | b ".
Proof. reflexivity. Qed.

Lemma startswith_cons (s p : string) (c : ascii) :
  startswith s (String c p) = true ->
  exists s', s = String c s' /\ startswith s' p = true.
Proof.
  destruct s as [|b s']; simpl; [discriminate|].
  destruct (Ascii.eqb_spec c b) as [->|_]; [|discriminate].
  intros Hp. by exists s'.
Qed.

(** ** Heading *)

Lemma Heading_init_setext (pre : list string) (last : string) (c : ascii)
    (rest : string) :
  pre <> [] -> last = String c rest ->
  Heading_init (pre ++ [last]) =
  Ok (mkHeading (if Ascii.eqb c "=" then Some 1
                 else if Ascii.eqb c "-" then Some 2 else None)
                (tokenize_inner (join " " (strip <$> pre)))).
Proof.
  intros Hpre ->. unfold Heading_init.
  assert ((length (pre ++ [String c rest]) =? 1)%nat = false) as ->.
  { apply Nat.eqb_neq. rewrite length_app. destruct pre; simpl; [done|lia]. }
  rewrite getitem_last. simpl. by rewrite slice_but_last.
Qed.

(** C3, as amended: on a run of more than one line [Heading.match] accepts
    exactly when the last line starts with [---] or [===]; the heading built
    from an accepted run has level 1 when the last line starts with [===]
    and level 2 when it starts with [---], and its text is the preceding
    lines, each trimmed, joined by a space. *)
Theorem Heading_setext (pre : list string) (last : string) :
  pre <> [] ->
  Heading_match (pre ++ [last]) =
    Ok (startswith last "---" || startswith last "===")
  /\ (startswith last "===" = true ->
      Heading_init (pre ++ [last]) =
      Ok (mkHeading (Some 1) (tokenize_inner (join " " (strip <$> pre)))))
  /\ (startswith last "---" = true ->
      Heading_init (pre ++ [last]) =
      Ok (mkHeading (Some 2) (tokenize_inner (join " " (strip <$> pre))))).
Proof.
  intros Hpre.
  assert (length (pre ++ [last]) = S (length pre)) as Hlen
    by (rewrite length_app; simpl; lia).
  assert (length pre <> 0%nat) as Hne by (destruct pre; simpl; congruence).
  split; [|split].
  - unfold Heading_match. rewrite Hlen.
    assert ((S (length pre) =? 1)%nat = false) as -> by (apply Nat.eqb_neq; lia).
    assert ((1 <? S (length pre))%nat = true) as -> by (apply Nat.ltb_lt; lia).
    simpl. by rewrite getitem_last.
  - intros Hs. apply startswith_cons in Hs as (rest & -> & _).
    by rewrite (Heading_init_setext pre _ "=" rest).
  - intros Hs. apply startswith_cons in Hs as (rest & -> & _).
    by rewrite (Heading_init_setext pre _ "-" rest).
Qed.

Lemma Heading_setext_witness :
  Heading_match (["Title" +:+ nl] ++ ["===" +:+ nl]) =
    Ok (startswith ("===" +:+ nl) "---" || startswith ("===" +:+ nl) "===")
  /\ (startswith ("===" +:+ nl) "===" = true ->
      Heading_init (["Title" +:+ nl] ++ ["===" +:+ nl]) =
      Ok (mkHeading (Some 1)
            (tokenize_inner (join " " (strip <$> ["Title" +:+ nl])))))
  /\ (startswith ("===" +:+ nl) "---" = true ->
      Heading_init (["Title" +:+ nl] ++ ["===" +:+ nl]) =
      Ok (mkHeading (Some 2)
            (tokenize_inner (join " " (strip <$> ["Title" +:+ nl]))))).
Proof. apply (Heading_setext ["Title" +:+ nl] ("===" +:+ nl)). discriminate. Defined.

(** The two headings of the spec. *)
Example Heading_setext_levels :
  Heading_init ["Title" +:+ nl; "===" +:+ nl] =
    Ok (mkHeading (Some 1) (tokenize_inner "Title"))
  /\ Heading_init ["Title" +:+ nl; "---" +:+ nl] =
    Ok (mkHeading (Some 2) (tokenize_inner "Title")).
Proof. split; reflexivity. Qed.

(** C3, as stated, fails: this run is accepted, and its last line is more
    than [---] or [===], also when it is trimmed. *)
Lemma Heading_match_accepts_longer_last_line :
  Heading_match ["Title" +:+ nl; "--- and more" +:+ nl] = Ok true
  /\ strip ("--- and more" +:+ nl) = "--- and more"
  /\ "--- and more" <> "---"
  /\ "--- and more" <> "===".
Proof. repeat split; (reflexivity || discriminate). Qed.

(** The heading of the spec: three hashes, level 3, the closing hashes
    trimmed. *)
Example Heading_atx_title :
  Heading_match ["### Title ###" +:+ nl] = Ok true
  /\ Heading_init ["### Title ###" +:+ nl] =
     Ok (mkHeading (Some 3) (tokenize_inner "Title"))
  /\ leading_hashes ("### Title ###" +:+ nl) = 3.
Proof. repeat split; reflexivity. Qed.

(** C4: the level of an ATX heading is one more than the length of the text
    before the first [# ], whatever that text is.  The line below starts
    with one hash and is accepted by [Heading.match]; the heading built from
    it has level 3. *)
Theorem Heading_atx_level_is_offset_of_marker :
  Heading_match ["#a# b" +:+ nl] = Ok true
  /\ Heading_init ["#a# b" +:+ nl] =
     Ok (mkHeading (Some 3) (tokenize_inner "b"))
  /\ leading_hashes ("#a# b" +:+ nl) = 1.
Proof. repeat split; reflexivity. Qed.

Lemma cut_hashes (n : nat) (rest : string) :
  cut "# " (hashes n (String "#" (String " " rest))) =
  Some (hashes n EmptyString, rest).
Proof.
  induction n as [|n IH]; [reflexivity|].
  change (hashes (S n) ?s) with (String "#" (hashes n s)).
  cbn [cut]. rewrite IH.
  by destruct n.
Qed.

Lemma find_hashes (n : nat) (rest : string) :
  find (hashes n (String "#" (String " " rest))) "# " = Z.of_nat n.
Proof.
  induction n as [|n IH]; [reflexivity|].
  change (hashes (S n) ?s) with (String "#" (hashes n s)).
  cbn [find]. rewrite IH.
  replace (startswith (String "#" (hashes n (String "#" (String " " rest))))
             "# ") with false by (by destruct n).
  destruct (Z.eqb_spec (Z.of_nat n) (-1)); lia.
Qed.

Lemma len_hashes (n : nat) : len (hashes n EmptyString) = Z.of_nat n.
Proof. unfold len. induction n; simpl in *; lia. Qed.

Lemma leading_hashes_hashes (n : nat) (rest : string) :
  leading_hashes (hashes n (String "#" (String " " rest))) = Z.of_nat n + 1.
Proof. induction n as [|n IH]; [reflexivity|]. simpl in *. lia. Qed.

(** X4: where the text before the first [# ] is made of hashes, the line
    is accepted by [Heading.match], the level of the heading is the number
    of hashes the line starts with, and its text is what lies between that
    [# ] and the next [ #], trimmed. *)
Lemma Heading_init_atx_hashes (n : nat) (rest : string) :
  let line := hashes n (String "#" (String " " rest)) in
  Heading_match [line] = Ok true
  /\ Heading_init [line] =
     Ok (mkHeading (Some (leading_hashes line))
           (tokenize_inner
              (strip (match cut " #" rest with
                      | Some (text, _) => text
                      | None => rest
                      end)))).
Proof.
  intros line. split.
  - unfold Heading_match, line. cbn [length Nat.eqb].
    change (getitem [?l] 0) with (Ok l). cbn [mbind result_bind bind].
    rewrite find_hashes.
    replace (startswith _ "#") with true by (by destruct n).
    by destruct (Z.eqb_spec (Z.of_nat n) (-1)); [lia|].
  - unfold Heading_init, line. cbn [length Nat.eqb].
    change (getitem [?l] 0) with (Ok l). cbn [mbind result_bind bind].
    cbn [split_max]. rewrite cut_hashes, leading_hashes_hashes, len_hashes.
    by destruct (cut " #" rest) as [[text after]|].
Qed.

(** ** FootnoteEntry *)

(** C7: [FootnoteEntry.__init__] splits on every [ ]: ] and unpacks two
    fields, so a line with a second [ ]: ], which [FootnoteBlock.match]
    accepts, raises ValueError. *)
Theorem FootnoteEntry_init_second_separator :
  FootnoteBlock_match ["[a]: b]: c" +:+ nl] = Ok true
  /\ split (strip ("[a]: b]: c" +:+ nl)) "]:" = ["[a"; " b"; " c"]
  /\ FootnoteEntry_init ("[a]: b]: c" +:+ nl) = Raise ValueError.
Proof. repeat split; reflexivity. Qed.

(** X9: a line whose trimmed text holds [ ]: ] once is built into an
    entry: the key is the text before [ ]: ] without its first character,
    the value the text behind it, trimmed. *)
Lemma FootnoteEntry_init_once (line key value : string) :
  cut "]:" (strip line) = Some (key, value) ->
  cut "]:" value = None ->
  FootnoteEntry_init line =
  Ok (mkFootnoteEntry (str_slice key (Some 1) None) (strip value)).
Proof.
  intros Hfirst Hnone. unfold FootnoteEntry_init, split.
  destruct (strip line) as [|c s] eqn:Hline; [done|].
  cbn [String.length split_max]. rewrite Hfirst.
  by destruct (String.length s); cbn [split_max]; rewrite ?Hnone.
Qed.

Lemma FootnoteEntry_init_once_witness :
  FootnoteEntry_init ("[1]: http://example.com" +:+ nl) =
  Ok (mkFootnoteEntry (str_slice "[1" (Some 1) None)
        (strip " http://example.com")).
Proof.
  apply (FootnoteEntry_init_once ("[1]: http://example.com" +:+ nl)
           "[1" " http://example.com"); reflexivity.
Defined.

Example FootnoteEntry_init_example :
  FootnoteEntry_init ("[1]: http://example.com" +:+ nl) =
  Ok (mkFootnoteEntry "1" "http://example.com").
Proof. reflexivity. Qed.

(** ** Table *)

(** [Table.__init__] reads [lines[1]] first: it raises IndexError exactly
    on a list of fewer than two lines, and nothing else in it raises. *)
Lemma Table_init_raises (lines : list string) :
  (length lines < 2)%nat -> Table_init lines = Raise IndexError.
Proof.
  intros Hlen. unfold Table_init.
  rewrite (getitem_lookup lines 1 : getitem lines 1 = _).
  by rewrite lookup_ge_None_2 by lia.
Qed.

Lemma Table_init_returns (lines : list string) :
  (2 <= length lines)%nat -> exists t after, Table_init lines = Ok (t, after).
Proof.
  intros Hlen. unfold Table_init.
  rewrite (getitem_lookup lines 1 : getitem lines 1 = _).
  destruct (lookup_lt_is_Some_2 lines 1%nat) as [l1 Hl1]; [lia|].
  rewrite Hl1. simpl.
  destruct (negb (find l1 "---" =? -1)); [|by eauto].
  unfold pop. rewrite Hl1. simpl. by eauto.
Qed.

(** [Table.match] on newline-terminated lines: both accesses are in
    range. *)
Lemma str_getitem_first (c : ascii) (s : string) :
  str_getitem (String c s) 0 = Ok c.
Proof. exact (getitem_lookup (chars (String c s)) 0%nat). Qed.

Lemma str_getitem_second_to_last (c1 c2 : ascii) (s : string) :
  exists c, str_getitem (String c1 (String c2 s)) (-2) = Ok c.
Proof.
  unfold str_getitem, getitem.
  cbn [chars String.list_ascii_of_string length]. fold (chars s).
  replace (-2 <? 0) with true by reflexivity.
  set (n := length (chars s)).
  replace (Z.of_nat (S (S n)) + -2) with (Z.of_nat n) by lia.
  destruct (Z.ltb_spec (Z.of_nat n) 0) as [?|_]; [lia|].
  destruct (Z.leb_spec (Z.of_nat (S (S n))) (Z.of_nat n)) as [?|_]; [lia|].
  simpl. rewrite Nat2Z.id.
  destruct (lookup_lt_is_Some_2 (c1 :: c2 :: chars s) n) as [c ->];
    [simpl; lia|].
  by exists c.
Qed.

(** X17: on lines that end with a newline [Table.match] does not raise:
    the first character of every line it reads is there, and so is the
    second to last of a line that starts with a bar. *)
Lemma Table_match_in_range (lines : list string) :
  Forall (fun line => exists body, line = body +:+ nl) lines ->
  exists accepted, Table_match lines = Ok accepted.
Proof.
  induction 1 as [|line lines [body ->] _ [accepted IH]]; [by exists true|].
  cbn [Table_match].
  destruct body as [|c1 body]; [by exists false|].
  change (String c1 body +:+ nl) with (String c1 (body +:+ nl)).
  rewrite str_getitem_first. cbn [mbind result_bind bind].
  destruct (negb (Ascii.eqb c1 "|")); [by exists false|].
  assert (exists c2 s, body +:+ nl = String c2 s) as (c2 & s & ->)
    by (destruct body; simpl; eauto).
  destruct (str_getitem_second_to_last c1 c2 s) as [c ->].
  cbn [mbind result_bind bind].
  destruct (negb (Ascii.eqb c "|")); [by exists false|].
  by exists accepted.
Qed.

Lemma Table_match_in_range_witness :
  exists accepted,
    Table_match ["| a |" +:+ nl; "no table" +:+ nl] = Ok accepted.
Proof.
  apply (Table_match_in_range ["| a |" +:+ nl; "no table" +:+ nl]).
  repeat constructor; by eexists.
Defined.

(** C10: a run of one line is accepted by [Table.match], and
    [Table.__init__] raises IndexError on it. *)
Theorem Table_init_single_line :
  Table_match ["| a |" +:+ nl] = Ok true
  /\ Table_init ["| a |" +:+ nl] = Raise IndexError.
Proof. split; reflexivity. Qed.

(** ** List.start *)

Lemma List_init_start (lines : list string) (t : ListToken) :
  List_init lines = Ok t -> List_read_start lines = Ok (List_start t).
Proof.
  unfold List_init. simpl.
  destruct (List_build_list _ lines) as [[children|e]|]; [|done..].
  destruct (List_read_start lines) as [start|e]; [|done].
  simpl. by intros [= <-].
Qed.

(** The two lists of the spec. *)
Example List_start_examples :
  List_init ["1. a" +:+ nl; "2. b" +:+ nl] =
    Ok (List [ListItem (tokenize_inner "a"); ListItem (tokenize_inner "b")]
             (Some 1))
  /\ List_init ["- a" +:+ nl; "- b" +:+ nl] =
    Ok (List [ListItem (tokenize_inner "a"); ListItem (tokenize_inner "b")]
             None).
Proof. split; reflexivity. Qed.

(** The three outcomes of reading [start]: no digits before the last
    character of the leader, decimal digits, and digits that [int] does not
    convert. *)
Lemma List_read_start_cases (l0 : string) (lines : list string) :
  let digits := str_slice (leader_of l0) None (Some (-1)) in
  (isdigit digits = false -> List_read_start (l0 :: lines) = Ok None)
  /\ (isdigit digits = true ->
      forallb isdecimal_char (chars digits) = true ->
      List_read_start (l0 :: lines) =
      Ok (Some (fold_left (fun acc c => 10 * acc + digit_value c)
                  (chars digits) 0)))
  /\ (isdigit digits = true ->
      forallb isdecimal_char (chars digits) = false ->
      List_read_start (l0 :: lines) = Raise ValueError).
Proof.
  intros digits. unfold List_read_start.
  change (getitem (l0 :: lines) 0) with (Ok l0).
  cbn [mbind result_bind bind]. fold digits. unfold int.
  repeat split; intros Hd; try intros Hdec; rewrite Hd; try rewrite Hdec; done.
Qed.

(** C8: the guard of [int] is [isdigit], which also holds of the
    superscript digits; [int] does not convert them.  The line below has a
    valid leader, [List.match] accepts it, and [List.__init__] raises
    ValueError instead of setting [start]. *)
Theorem List_init_superscript_leader :
  let line := String superscript_two (". a" +:+ nl) in
  List_match [line] = Ok true
  /\ isdigit (str_slice (leader_of line) None (Some (-1))) = true
  /\ List_init [line] = Raise ValueError.
Proof. repeat split; reflexivity. Qed.

(** ** TableRow *)

(** Consuming the children of a row that has at least as many cells as
    alignments: every cell is built, the alignments being padded with
    [None]. *)
Lemma TableRow_children_padded (cells : list string) (aligns : list (option Z)) :
  (length aligns <= length cells)%nat ->
  traverse (fun p : option string * option Z =>
              match p.1 with
              | Some cell => Ok (TableCell_init (strip cell) p.2)
              | None => Raise AttributeError
              end)
           (zip_longest None None (Some <$> cells) aligns) =
  Ok (zip_with (fun cell align => TableCell_init (strip cell) align) cells
        (aligns ++ replicate (length cells - length aligns) None)).
Proof.
  revert aligns. induction cells as [|cell cells IH]; intros aligns Hlen.
  - destruct aligns; [done|simpl in Hlen; lia].
  - rewrite fmap_cons.
    destruct aligns as [|align aligns]; cbn [zip_longest traverse].
    + rewrite (IH []) by (simpl; lia). simpl. by rewrite Nat.sub_0_r.
    + simpl in Hlen. rewrite (IH aligns) by lia. done.
Qed.

(** C5, as amended: a row with more cells than alignments is built and its
    children can be consumed; every cell beyond the alignments gets the
    alignment [None], which is also the value [parse_align] gives a
    left-aligned column. *)
Theorem TableRow_excess_cells (line : string)
    (row_align : option (list (option Z))) :
  let row := TableRow_init line row_align in
  (length (TableRow_row_align row) < length (TableRow_cells line))%nat ->
  exists cells,
    TableRow_children row = Ok cells
    /\ length cells = length (TableRow_cells line)
    /\ (forall i cell,
          (length (TableRow_row_align row) <= i)%nat ->
          cells !! i = Some cell -> TableCell_align cell = None)
    /\ Table_parse_align ":---" = None.
Proof.
  intros row. unfold row, TableRow_init. simpl.
  set (aligns := match row_align with Some a => a | None => [None] end).
  intros Hlen. eexists. split; [apply TableRow_children_padded; lia|].
  split; [|split; [|reflexivity]].
  - rewrite length_zip_with, length_app, length_replicate. lia.
  - intros i cell Hi Hcell.
    apply lookup_zip_with_Some in Hcell as (c & a & -> & _ & Ha).
    rewrite lookup_app_r in Ha by done.
    apply lookup_replicate in Ha as [-> _]. done.
Qed.

Lemma TableRow_excess_cells_witness :
  exists cells,
    TableRow_children (TableRow_init ("| a | b |" +:+ nl) (Some [Some 0])) =
      Ok cells
    /\ length cells = length (TableRow_cells ("| a | b |" +:+ nl))
    /\ (forall i cell,
          (length (TableRow_row_align
                     (TableRow_init ("| a | b |" +:+ nl) (Some [Some 0%Z])))
           <= i)%nat ->
          cells !! i = Some cell -> TableCell_align cell = None)
    /\ Table_parse_align ":---" = None.
Proof.
  apply (TableRow_excess_cells ("| a | b |" +:+ nl) (Some [Some 0])).
  vm_compute. lia.
Defined.

(** C5, as stated, fails: the second cell of this row has no alignment of
    its own, and its [align] is the value of a left-aligned column. *)
Lemma TableRow_excess_cell_is_left :
  exists cell,
    TableRow_children (TableRow_init ("| a | b |" +:+ nl) (Some [Some 0])) =
      Ok [TableCell_init "a" (Some 0); cell]
    /\ TableCell_align cell = Table_parse_align ":---".
Proof. eexists. split; reflexivity. Qed.

(** With fewer cells than alignments the missing cell is [None], and
    consuming the children raises. *)
Example TableRow_missing_cell :
  TableRow_children (TableRow_init ("| a |" +:+ nl) (Some [Some 0; Some 1])) =
  Raise AttributeError.
Proof. reflexivity. Qed.

(** ** The list a constructor is given *)





(** ** The footnotes of a document *)



Section Footnotes.

Variable normalize : list string -> list (list string).
Variable custom_match : string -> list string -> result bool.




End Footnotes.




(** ** List.build_list *)

Lemma str_chars (s : string) : str (chars s) = s.
Proof. apply String.string_of_list_ascii_of_string. Qed.

Lemma chars_length (s : string) : length (chars s) = String.length s.
Proof. induction s; simpl; congruence. Qed.

(** [line[4:]] of a line that starts with four characters. *)
Lemma str_slice_4 (c1 c2 c3 c4 : ascii) (rest : string) :
  str_slice (String c1 (String c2 (String c3 (String c4 rest)))) (Some 4) None
  = rest.
Proof.
  unfold str_slice, slice, slice_bound. cbn [chars String.list_ascii_of_string].
  fold (chars rest). cbn [length].
  replace (4 <? 0) with false by reflexivity.
  rewrite Z.min_l by lia.
  replace (Z.to_nat (Z.of_nat (S (S (S (S (length (chars rest)))))))
           - Z.to_nat 4)%nat with (length (chars rest)) by lia.
  change (Z.to_nat 4) with 4%nat. cbn [drop]. rewrite drop_0.
  by rewrite firstn_all, str_chars.
Qed.

(** A line that starts with a space has no valid leader. *)
Lemma List_has_valid_leader_space (rest : string) :
  List_has_valid_leader (String " " rest) = false.
Proof. reflexivity. Qed.

(** ** The fuel of List.__init__ *)

Local Open Scope nat_scope.

Lemma total_chars_snoc (lines : list string) (line : string) :
  total_chars (lines ++ [line]) = total_chars lines + String.length line.
Proof. unfold total_chars. rewrite sum_list_with_app. simpl. lia. Qed.

Lemma startswith_indent (line : string) :
  startswith line "    " = true ->
  String.length (str_slice line (Some 4%Z) None) + 4 = String.length line.
Proof.
  intros Hs.
  apply startswith_cons in Hs as (s1 & -> & Hs).
  apply startswith_cons in Hs as (s2 & -> & Hs).
  apply startswith_cons in Hs as (s3 & -> & Hs).
  apply startswith_cons in Hs as (s4 & -> & _).
  rewrite str_slice_4. simpl. lia.
Qed.

Section fuel.

Variable fuel : nat.
Variable List_ : list string -> option (result ListToken).
Hypothesis List_some :
  forall buffer, total_chars buffer + 4 <= fuel -> is_Some (List_ buffer).

Lemma clear_buffer_some (st : build_state) :
  weight st <= fuel ->
  exists r, clear_buffer List_ st = Some r
    /\ forall out st', r = Ok (out, st') -> weight st' <= weight st.
Proof.
  intros Hw. unfold clear_buffer.
  destruct st as [[|line buffer] is_nested]; simpl.
  - eexists. split; [done|]. by intros out st' [= <- <-].
  - destruct is_nested.
    + destruct (List_some (line :: buffer)) as [[t|e] ->]; [done| |].
      * eexists. split; [done|]. intros out st' [= <- <-].
        unfold weight. simpl. lia.
      * eexists. split; [done|]. done.
    + eexists. split; [done|]. intros out st' [= <- <-].
      unfold weight. simpl. lia.
Qed.

Lemma build_step_some (st : build_state) (line : string) :
  weight st + String.length line <= fuel ->
  exists r, build_step List_ st line = Some r
    /\ forall out st', r = Ok (out, st') ->
         weight st' <= weight st + String.length line.
Proof.
  intros Hw. unfold build_step.
  destruct (clear_buffer_some st) as (r & Hr & Hst'); [lia|].
  destruct (List_has_valid_leader line).
  - rewrite Hr. destruct r as [[out st']|e].
    + eexists. split; [done|]. intros ? ? [= <- <-].
      specialize (Hst' _ _ eq_refl).
      unfold weight, buffer_append in *. simpl.
      rewrite total_chars_snoc. lia.
    + eexists. split; [done|]. done.
  - destruct (startswith line "    ") eqn:Hindent.
    + pose proof (startswith_indent line Hindent) as Hlen.
      destruct (List_has_valid_leader (str_slice line (Some 4%Z) None)).
      * destruct (nested st) eqn:Hnested; simpl.
        -- eexists. split; [done|]. intros ? ? [= <- <-].
           unfold weight. rewrite Hnested. simpl.
           rewrite total_chars_snoc. lia.
        -- rewrite Hr. destruct r as [[out st']|e].
           ++ eexists. split; [done|]. intros ? ? [= <- <-].
              specialize (Hst' _ _ eq_refl).
              unfold weight in *. rewrite Hnested in *. simpl.
              rewrite total_chars_snoc. lia.
           ++ eexists. split; [done|]. done.
      * eexists. split; [done|]. intros ? ? [= <- <-].
        unfold weight, buffer_append. simpl.
        rewrite total_chars_snoc. lia.
    + eexists. split; [done|]. intros ? ? [= <- <-].
      unfold weight, buffer_append. simpl.
      rewrite total_chars_snoc. lia.
Qed.

Lemma build_loop_some (lines : list string) (st : build_state) :
  weight st + total_chars lines <= fuel ->
  is_Some (build_loop List_ st lines).
Proof.
  revert st. induction lines as [|line lines IH]; intros st Hw; simpl.
  - destruct (clear_buffer_some st) as ([[out st']|e] & -> & _); [|done..].
    unfold total_chars in Hw. simpl in Hw. lia.
  - unfold total_chars in Hw. simpl in Hw. fold (total_chars lines) in Hw.
    destruct (build_step_some st line) as (r & -> & Hst'); [lia|].
    destruct r as [[out st']|e]; [|done].
    specialize (Hst' _ _ eq_refl).
    destruct (IH st') as [[rest|e] ->]; [lia|done..].
Qed.

End fuel.

Section more_fuel.

Variables List_1 List_2 : list string -> option (result ListToken).
Hypothesis List_more :
  forall buffer r, List_1 buffer = Some r -> List_2 buffer = Some r.

Lemma clear_buffer_more (st : build_state) r :
  clear_buffer List_1 st = Some r -> clear_buffer List_2 st = Some r.
Proof.
  unfold clear_buffer. destruct (line_buffer st); [done|].
  destruct (nested st); [|done].
  destruct (List_1 _) as [r1|] eqn:H1; [|done].
  by rewrite (List_more _ _ H1).
Qed.

Lemma build_step_more (st : build_state) (line : string) r :
  build_step List_1 st line = Some r -> build_step List_2 st line = Some r.
Proof.
  unfold build_step.
  destruct (List_has_valid_leader line).
  - destruct (clear_buffer List_1 st) as [r1|] eqn:H1; [|by destruct r].
    by rewrite (clear_buffer_more _ _ H1).
  - destruct (startswith line "    "); [|done].
    destruct (List_has_valid_leader _); [|done].
    destruct (negb (nested st)); [|done].
    destruct (clear_buffer List_1 st) as [r1|] eqn:H1; [|by destruct r].
    by rewrite (clear_buffer_more _ _ H1).
Qed.

Lemma build_loop_more (lines : list string) (st : build_state) r :
  build_loop List_1 st lines = Some r -> build_loop List_2 st lines = Some r.
Proof.
  revert st r. induction lines as [|line lines IH]; intros st r; simpl.
  - destruct (clear_buffer List_1 st) as [r1|] eqn:H1; [|done].
    by rewrite (clear_buffer_more _ _ H1).
  - destruct (build_step List_1 st line) as [r1|] eqn:H1; [|done].
    rewrite (build_step_more _ _ _ H1).
    destruct r1 as [[out st']|e]; [|done].
    destruct (build_loop List_1 st' lines) as [r2|] eqn:H2;
      [|by destruct r].
    by rewrite (IH _ _ H2).
Qed.

End more_fuel.

(** More fuel does not change an outcome. *)
Lemma List_init_fuel_more (fuel : nat) :
  forall lines r,
    List_init_fuel fuel lines = Some r ->
    forall fuel', fuel <= fuel' -> List_init_fuel fuel' lines = Some r.
Proof.
  induction fuel as [|fuel IH]; intros lines r Hr fuel' Hle; [done|].
  destruct fuel' as [|fuel']; [lia|]. simpl in Hr |- *.
  unfold List_build_list in *.
  destruct (build_loop (List_init_fuel fuel) _ lines) as [r1|] eqn:H1;
    [|done].
  rewrite (build_loop_more (List_init_fuel fuel) (List_init_fuel fuel')
             ltac:(intros; eapply IH; [eassumption|lia]) _ _ _ H1).
  done.
Qed.

Lemma List_init_fuel_S (fuel : nat) (lines : list string) :
  List_init_fuel (S fuel) lines =
  match build_loop (List_init_fuel fuel) (mkState [] false) lines with
  | None => None
  | Some (Raise e) => Some (Raise e)
  | Some (Ok children) =>
      Some (start ← List_read_start lines; Ok (List children start))
  end.
Proof. reflexivity. Qed.

(** As much fuel as the lines have characters is not used up. *)
Lemma List_init_fuel_some (fuel : nat) :
  forall lines, total_chars lines <= fuel ->
    is_Some (List_init_fuel (S fuel) lines).
Proof.
  induction fuel as [|fuel IH]; intros lines Hlen; rewrite List_init_fuel_S.
  - destruct (build_loop_some 0 (List_init_fuel 0) ltac:(intros; lia)
                lines (mkState [] false)) as [[children|e] ->];
      [unfold weight; simpl; lia|done..].
  - destruct (build_loop_some (S fuel) (List_init_fuel (S fuel))
                ltac:(intros; apply IH; lia)
                lines (mkState [] false)) as [[children|e] ->];
      [unfold weight; simpl; lia|done..].
Qed.

(** [List_init] is the outcome of [List.__init__] for any fuel beyond the
    number of characters of the lines. *)
Lemma List_init_fuel_enough (fuel : nat) (lines : list string) :
  total_chars lines < fuel ->
  List_init_fuel fuel lines = Some (List_init lines).
Proof.
  intros Hlen. unfold List_init.
  destruct (List_init_fuel_some (total_chars lines) lines) as [r Hr]; [lia|].
  rewrite Hr. by apply (List_init_fuel_more _ _ _ Hr).
Qed.

Local Open Scope Z_scope.

(** ** The nested list of the spec *)

(** C2: the three lines of the spec give an item, a nested list of one item
    and an item, in this order.  In the loop of [build_list], a line of
    four spaces and then a valid leader loses the four spaces and is
    appended to a buffer tagged nested: to the current buffer when that is
    tagged nested already, and otherwise to a new one, after the current
    buffer has been flushed into an item (an empty buffer yields
    nothing). *)
Theorem List_build_list_nested :
  List_init ["- a" +:+ nl; "    - b" +:+ nl; "- c" +:+ nl] =
    Ok (List [ListItem (tokenize_inner "a");
              List [ListItem (tokenize_inner "b")] None;
              ListItem (tokenize_inner "c")] None)
  /\ forall List_ st rest,
      List_has_valid_leader rest = true ->
      (nested st = true ->
       build_step List_ st ("    " +:+ rest) =
       Some (Ok ([], mkState (line_buffer st ++ [rest]) true)))
      /\ (nested st = false -> line_buffer st <> [] ->
          build_step List_ st ("    " +:+ rest) =
          Some (Ok ([ListItem_init (line_buffer st)], mkState [rest] true)))
      /\ (nested st = false -> line_buffer st = [] ->
          build_step List_ st ("    " +:+ rest) =
          Some (Ok ([], mkState [rest] true))).
Proof.
  split; [reflexivity|].
  intros List_ [buffer is_nested] rest Hleader.
  change ("    " +:+ rest)
    with (String " " (String " " (String " " (String " " rest)))).
  unfold build_step.
  rewrite List_has_valid_leader_space.
  change (startswith (String " " (String " " (String " " (String " " rest))))
            "    ") with true.
  cbv iota. rewrite str_slice_4, Hleader. simpl.
  repeat split.
  - by intros ->.
  - intros -> Hbuffer. unfold clear_buffer. simpl.
    by destruct buffer.
  - by intros -> ->.
Qed.

Lemma List_build_list_nested_witness :
  (nested (mkState ["- a" +:+ nl] false) = true ->
   build_step (fun _ => None) (mkState ["- a" +:+ nl] false)
     ("    " +:+ ("- b" +:+ nl)) =
   Some (Ok ([], mkState (["- a" +:+ nl] ++ ["- b" +:+ nl]) true)))
  /\ (nested (mkState ["- a" +:+ nl] false) = false ->
      line_buffer (mkState ["- a" +:+ nl] false) <> [] ->
      build_step (fun _ => None) (mkState ["- a" +:+ nl] false)
        ("    " +:+ ("- b" +:+ nl)) =
      Some (Ok ([ListItem_init ["- a" +:+ nl]], mkState ["- b" +:+ nl] true)))
  /\ (nested (mkState ["- a" +:+ nl] false) = false ->
      line_buffer (mkState ["- a" +:+ nl] false) = [] ->
      build_step (fun _ => None) (mkState ["- a" +:+ nl] false)
        ("    " +:+ ("- b" +:+ nl)) =
      Some (Ok ([], mkState ["- b" +:+ nl] true))).
Proof.
  apply (proj2 List_build_list_nested (fun _ => None)
           (mkState ["- a" +:+ nl] false) ("- b" +:+ nl)).
  reflexivity.
Defined.

(** * Further properties *)

(** ** The registry, whatever it holds *)

Lemma list_remove_absent {A} `{EqDecision A} (x : A) (l : list A) :
  x ∉ l -> list_remove x l = Raise ValueError.
Proof.
  induction l as [|y l IH]; intros Hx; [done|].
  apply not_elem_of_cons in Hx as [Hne Hx]. simpl.
  rewrite decide_False by congruence. by rewrite IH.
Qed.

Lemma list_remove_first {A} `{EqDecision A} (x : A) (before after : list A) :
  x ∉ before -> list_remove x (before ++ x :: after) = Ok (before ++ after).
Proof.
  induction before as [|y before IH]; intros Hx; simpl.
  - by rewrite decide_True.
  - apply not_elem_of_cons in Hx as [Hne Hx].
    rewrite decide_False by congruence. by rewrite IH.
Qed.

(** X1: [remove_token] raises ValueError when the class is not registered
    and leaves the registry as it was; when the class is registered, the
    first of its occurrences is removed and nothing else changes. *)
Theorem remove_token_first_occurrence (cls : token_cls)
    (types : list token_cls) :
  (cls ∉ types -> remove_token cls types = Raise ValueError)
  /\ (forall before after,
        types = before ++ cls :: after -> cls ∉ before ->
        remove_token cls types = Ok (before ++ after)).
Proof.
  split.
  - apply list_remove_absent.
  - intros before after -> Hbefore. by apply list_remove_first.
Qed.

Lemma remove_token_first_occurrence_witness :
  remove_token (Custom_cls "Mention") _token_types = Raise ValueError
  /\ remove_token List_cls _token_types =
     Ok ([Heading_cls; Quote_cls; BlockCode_cls; Separator_cls]
         ++ [Table_cls; FootnoteBlock_cls]).
Proof.
  split.
  - apply (proj1 (remove_token_first_occurrence (Custom_cls "Mention")
                    _token_types)).
    unfold _token_types. intros Hin.
    repeat (apply elem_of_cons in Hin as [Hin|Hin]; [discriminate Hin|]).
    by apply elem_of_nil in Hin.
  - apply (proj2 (remove_token_first_occurrence List_cls _token_types)
             [Heading_cls; Quote_cls; BlockCode_cls; Separator_cls]
             [Table_cls; FootnoteBlock_cls] eq_refl).
    intros Hin.
    repeat (apply elem_of_cons in Hin as [Hin|Hin]; [discriminate Hin|]).
    by apply elem_of_nil in Hin.
Defined.

(** X2: [add_token] followed by [remove_token] of the same class gives the
    registry back for every registry and every class, also one that is
    registered already: the class is inserted at position 1, so the first
    occurrence that goes is the inserted one or an equal class in front of
    it. *)
Theorem add_token_remove_token_any (cls : token_cls)
    (types : list token_cls) :
  remove_token cls (add_token cls types) = Ok types.
Proof.
  unfold remove_token, add_token, list_insert_at.
  destruct types as [|first rest]; simpl.
  - by rewrite decide_True.
  - rewrite drop_0. destruct (decide (first = cls)) as [->|Hne]; [done|].
    by rewrite decide_True.
Qed.

(** ** Heading: what the matcher accepts, the constructor builds *)

Lemma find_cut (s sub : string) :
  find s sub <> -1 -> exists before after, cut sub s = Some (before, after).
Proof.
  induction s as [|c s IH]; simpl; destruct (startswith _ sub); eauto; [done|].
  destruct (Z.eqb_spec (find s sub) (-1)) as [|Hfound]; [done|].
  intros _. destruct (IH Hfound) as (before & after & ->). eauto.
Qed.

Lemma len_nonneg (s : string) : 0 <= len s.
Proof. unfold len. lia. Qed.

(** X3: every run [Heading.match] accepts is built by [Heading.__init__]
    without an exception, and the heading has its level set, to 1 or
    more. *)
Theorem Heading_match_builds (lines : list string) :
  Heading_match lines = Ok true ->
  exists level children,
    Heading_init lines = Ok (mkHeading (Some level) children) /\ 1 <= level.
Proof.
  unfold Heading_match. intros Hmatch.
  destruct lines as [|l0 [|l1 lines]]; [done| |].
  - (* one line *)
    cbn [length Nat.eqb] in Hmatch.
    change (getitem [l0] 0) with (Ok l0) in Hmatch.
    cbn [mbind result_bind bind] in Hmatch.
    destruct (startswith l0 "#" && negb (find l0 "# " =? -1)) eqn:Hatx;
      [|done].
    apply andb_prop in Hatx as [_ Hfound].
    apply negb_true_iff, Z.eqb_neq, find_cut in Hfound
      as (hashes & content & Hcut).
    unfold Heading_init. cbn [length Nat.eqb].
    change (getitem [l0] 0) with (Ok l0).
    cbn [mbind result_bind bind split_max]. rewrite Hcut.
    pose proof (len_nonneg hashes).
    destruct (cut " #" content) as [[text rest]|];
      do 2 eexists; (split; [reflexivity|lia]).
  - (* more lines *)
    cbn [length Nat.eqb Nat.ltb Nat.leb] in Hmatch.
    cbn [mbind result_bind bind] in Hmatch.
    destruct (exists_last (l:=l0 :: l1 :: lines) ltac:(done))
      as (pre & last & Hlines).
    assert (pre <> []) as Hpre.
    { intros ->. by destruct lines. }
    rewrite Hlines in *. rewrite getitem_last in Hmatch.
    cbn [mbind result_bind bind] in Hmatch.
    assert (startswith last "---" || startswith last "===" = true) as Hrule
      by congruence.
    apply orb_prop in Hrule as [Hs|Hs];
      apply startswith_cons in Hs as (rest & -> & _);
      erewrite Heading_init_setext by done;
      do 2 eexists; (split; [reflexivity|lia]).
Qed.

Lemma Heading_match_builds_witness :
  exists level children,
    Heading_init ["## Usage" +:+ nl] = Ok (mkHeading (Some level) children)
    /\ 1 <= level.
Proof. apply (Heading_match_builds ["## Usage" +:+ nl]). reflexivity. Defined.

(** ** Quote *)




(** ** Trimmed text *)

Lemma rstrip_cons_nonspace (c : ascii) (s : string) :
  isspace c = false -> exists r, rstrip (String c s) = String c r.
Proof.
  intros Hc. simpl. destruct (rstrip s); rewrite ?Hc; eauto.
Qed.

Lemma rstrip_rstrip (s : string) : rstrip (rstrip s) = rstrip s.
Proof.
  induction s as [|c s IH]; [done|]. simpl.
  destruct (rstrip s) as [|d r] eqn:Hr.
  - destruct (isspace c) eqn:Hc; [done|]. simpl. by rewrite Hc.
  - change (rstrip (String c (String d r)))
      with (match rstrip (String d r) with
            | EmptyString =>
                if isspace c then EmptyString else String c EmptyString
            | r' => String c r'
            end).
    by rewrite IH.
Qed.

Lemma lstrip_head (s : string) (c : ascii) (t : string) :
  lstrip s = String c t -> isspace c = false.
Proof.
  induction s as [|d s IH]; simpl; [done|].
  destruct (isspace d) eqn:Hd; [done|]. by intros [= <- _].
Qed.

Lemma strip_strip (s : string) : strip (strip s) = strip s.
Proof.
  unfold strip. destruct (lstrip s) as [|c t] eqn:Hs; [done|].
  pose proof (lstrip_head _ _ _ Hs) as Hc.
  destruct (rstrip_cons_nonspace c t Hc) as [r Hr]. rewrite Hr.
  cbn [lstrip]. rewrite Hc, <- Hr. apply rstrip_rstrip.
Qed.

Lemma lstrip_chars (s : string) (c : ascii) :
  c ∈ chars (lstrip s) -> c ∈ chars s.
Proof.
  induction s as [|d s IH]; simpl; [done|].
  destruct (isspace d); [|done].
  intros Hc. apply elem_of_cons. right. by apply IH.
Qed.

Lemma rstrip_chars (s : string) (c : ascii) :
  c ∈ chars (rstrip s) -> c ∈ chars s.
Proof.
  induction s as [|d s IH]; simpl; [done|].
  destruct (rstrip s) as [|e r].
  - destruct (isspace d); [by intros ?%elem_of_nil|].
    simpl. intros [->|?%elem_of_nil]%elem_of_cons; [|done].
    apply elem_of_cons. by left.
  - cbn [chars String.list_ascii_of_string]. fold (chars (String e r)).
    intros [->|Hc]%elem_of_cons; apply elem_of_cons; [by left|].
    right. by apply IH.
Qed.

Lemma replace_char_chars (a b : ascii) (s : string) :
  a <> b -> a ∉ chars (replace_char a b s).
Proof.
  intros Hab. induction s as [|c s IH]; simpl; [by intros ?%elem_of_nil|].
  fold (chars (replace_char a b s)).
  intros [Heq|Hin]%elem_of_cons; [|done].
  destruct (Ascii.eqb_spec c a); congruence.
Qed.

(** X6: the text a paragraph hands to the inline tokenizer holds no newline
    and is trimmed, whatever the lines are; [Paragraph.__init__] does not
    raise. *)
Theorem Paragraph_init_content (lines : list string) :
  exists content,
    Paragraph_init lines = Ok (mkParagraph (tokenize_inner content))
    /\ (Ascii.ascii_of_nat 10 ∉ chars content)
    /\ strip content = content.
Proof.
  eexists. split; [reflexivity|]. split.
  - intros Hin. apply rstrip_chars, lstrip_chars in Hin.
    by apply replace_char_chars in Hin.
  - apply strip_strip.
Qed.

(** ** BlockCode *)

Lemma rstrip_cons (c : ascii) (s : string) :
  isspace c = false -> rstrip (String c s) = String c (rstrip s).
Proof. intros Hc. simpl. destruct (rstrip s); by rewrite ?Hc. Qed.

Lemma str_slice_3 (c1 c2 c3 : ascii) (rest : string) :
  str_slice (String c1 (String c2 (String c3 rest))) (Some 3) None = rest.
Proof.
  unfold str_slice, slice, slice_bound. cbn [chars String.list_ascii_of_string].
  fold (chars rest). cbn [length].
  replace (3 <? 0) with false by reflexivity.
  rewrite Z.min_l by lia.
  replace (Z.to_nat (Z.of_nat (S (S (S (length (chars rest))))))
           - Z.to_nat 3)%nat with (length (chars rest)) by lia.
  change (Z.to_nat 3) with 3%nat. cbn [drop]. rewrite drop_0.
  by rewrite firstn_all, str_chars.
Qed.

Lemma slice_inner {A} (first last : A) (body : list A) :
  slice (first :: body ++ [last]) (Some 1) (Some (-1)) = body.
Proof.
  unfold slice, slice_bound. cbn [length]. rewrite length_app. cbn [length].
  replace (1 <? 0) with false by reflexivity.
  replace (-1 <? 0) with true by reflexivity.
  rewrite Z.min_l, Z.max_r by lia.
  change (Z.to_nat 1) with 1%nat. cbn [drop]. rewrite drop_0.
  replace (Z.to_nat (Z.of_nat (S (length body + 1)) + -1) - 1)%nat
    with (length body) by lia.
  apply take_app_length.
Qed.

Lemma fence_language (info : string) :
  str_slice (strip ("```" +:+ info)) (Some 3) None = rstrip info.
Proof.
  change ("```" +:+ info) with (String "`" (String "`" (String "`" info))).
  unfold strip. cbn [lstrip].
  change (isspace "`") with false. cbv iota.
  rewrite !rstrip_cons by reflexivity. apply str_slice_3.
Qed.

(** X7: a fenced code block keeps the lines between its first and its last
    line, joined as they are, and its language is the text behind the
    opening fence without the white space at its end; a block of the
    opening line alone has no content.  A run that opens with a fence and
    closes with the fence line is accepted by [BlockCode.match]. *)
Theorem BlockCode_fenced (info last : string) (body : list string) :
  BlockCode_init (("```" +:+ info) :: body ++ [last]) =
    Ok (mkBlockCode (rstrip info) (RawText (join EmptyString body)))
  /\ BlockCode_init ["```" +:+ info] =
    Ok (mkBlockCode (rstrip info) (RawText EmptyString))
  /\ BlockCode_match (("```" +:+ info) :: body ++ ["```" +:+ nl]) = Ok true.
Proof.
  split; [|split].
  - unfold BlockCode_init.
    change (getitem (?l0 :: ?l) 0) with (Ok l0). cbn [mbind result_bind bind].
    change (startswith ("```" +:+ info) "```") with true. cbv iota.
    by rewrite slice_inner, fence_language.
  - unfold BlockCode_init.
    change (getitem [?l0] 0) with (Ok l0). cbn [mbind result_bind bind].
    change (startswith ("```" +:+ info) "```") with true. cbv iota.
    by rewrite fence_language.
  - unfold BlockCode_match.
    change (getitem (?l0 :: ?l) 0) with (Ok l0). cbn [mbind result_bind bind].
    change (startswith ("```" +:+ info) "```") with true. cbv iota.
    change (("```" +:+ info) :: body ++ ["```" +:+ nl])
      with ((("```" +:+ info) :: body) ++ ["```" +:+ nl]).
    rewrite getitem_last.
    cbn [mbind result_bind bind]. by rewrite String.eqb_refl.
Qed.

(** X8: an indented code block gives back the lines it was indented from:
    lines that are each four spaces and then some text are accepted by
    [BlockCode.match], and the block built from them has that text, joined
    as it is, and no language. *)
Theorem BlockCode_indented (code : list string) :
  code <> [] ->
  BlockCode_match ((fun line => "    " +:+ line) <$> code) = Ok true
  /\ BlockCode_init ((fun line => "    " +:+ line) <$> code) =
     Ok (mkBlockCode EmptyString (RawText (join EmptyString code))).
Proof.
  intros Hne. destruct code as [|c0 code]; [done|]. split.
  - unfold BlockCode_match. rewrite fmap_cons.
    change (getitem (?l0 :: ?l) 0) with (Ok l0). cbn [mbind result_bind bind].
    change (startswith ("    " +:+ c0) "```") with false. cbv iota.
    cbn [mbind result_bind bind]. f_equal.
    rewrite <- fmap_cons. apply forallb_forall. intros line Hin.
    apply in_map_iff in Hin as (text & <- & _). reflexivity.
  - unfold BlockCode_init. rewrite fmap_cons.
    change (getitem (?l0 :: ?l) 0) with (Ok l0). cbn [mbind result_bind bind].
    change (startswith ("    " +:+ c0) "```") with false. cbv iota.
    rewrite <- fmap_cons.
    assert ((fun line => str_slice line (Some 4) None)
              <$> ((fun line => "    " +:+ line) <$> c0 :: code) = c0 :: code)
      as ->; [|done].
    rewrite <- list_fmap_compose.
    rewrite <- (list_fmap_id (c0 :: code)) at 2.
    apply list_fmap_ext. intros i line _.
    exact (str_slice_4 " " " " " " " " line).
Qed.

Lemma BlockCode_indented_witness :
  BlockCode_match ((fun line => "    " +:+ line) <$> ["rm -rf /" +:+ nl])
    = Ok true
  /\ BlockCode_init ((fun line => "    " +:+ line) <$> ["rm -rf /" +:+ nl]) =
     Ok (mkBlockCode EmptyString
           (RawText (join EmptyString ["rm -rf /" +:+ nl]))).
Proof. apply (BlockCode_indented ["rm -rf /" +:+ nl]). discriminate. Defined.

(** ** FootnoteBlock *)

Lemma traverse_Ok {A B} (f : A -> result B) (l : list A) (ys : list B) :
  traverse f l = Ok ys -> Forall2 (fun x y => f x = Ok y) l ys.
Proof.
  revert ys. induction l as [|x l IH]; intros ys; simpl.
  - intros [= <-]. constructor.
  - destruct (f x) as [y|] eqn:Hx; [|done]. simpl.
    destruct (traverse f l) as [ys'|]; [|done]. simpl.
    intros [= <-]. constructor; [done|]. by apply IH.
Qed.

Lemma traverse_Raise {A B} (f : A -> result B) (before after : list A)
    (x : A) (e : exn) :
  Forall (fun x' => exists y, f x' = Ok y) before -> f x = Raise e ->
  traverse f (before ++ x :: after) = Raise e.
Proof.
  intros Hbefore Hx.
  induction Hbefore as [|x' before [y Hy] _ IH]; simpl.
  - by rewrite Hx.
  - rewrite Hy. simpl. by rewrite IH.
Qed.

(** X10: a footnote block has one entry for each of its lines, in the order
    of the lines, each built by [FootnoteEntry] from its line; when an
    entry cannot be built, the block is not built either and the exception
    of the first such line is raised. *)
Theorem FootnoteBlock_init_entries (lines : list string) :
  (forall block,
      FootnoteBlock_init lines = Ok block ->
      Forall2 (fun line entry => FootnoteEntry_init line = Ok entry)
              lines (FootnoteBlock_children block))
  /\ (forall before line after e,
        lines = before ++ line :: after ->
        Forall (fun l => exists entry, FootnoteEntry_init l = Ok entry) before ->
        FootnoteEntry_init line = Raise e ->
        FootnoteBlock_init lines = Raise e).
Proof.
  unfold FootnoteBlock_init. split.
  - intros block.
    destruct (traverse FootnoteEntry_init lines) as [entries|] eqn:Hentries;
      [|done].
    simpl. intros [= <-]. by apply traverse_Ok.
  - intros before line after e -> Hbefore Hline.
    by rewrite (traverse_Raise _ _ _ _ _ Hbefore Hline).
Qed.

Lemma FootnoteBlock_init_entries_witness :
  Forall2 (fun line entry => FootnoteEntry_init line = Ok entry)
    ["[1]: one" +:+ nl; "[2]: two" +:+ nl]
    [mkFootnoteEntry "1" "one"; mkFootnoteEntry "2" "two"]
  /\ FootnoteBlock_init ["[1]: one" +:+ nl; "[a]: b]: c" +:+ nl] =
     Raise ValueError.
Proof.
  split.
  - apply (proj1 (FootnoteBlock_init_entries
                    ["[1]: one" +:+ nl; "[2]: two" +:+ nl])
             (mkFootnoteBlock
                [mkFootnoteEntry "1" "one"; mkFootnoteEntry "2" "two"])).
    reflexivity.
  - apply (proj2 (FootnoteBlock_init_entries
                    ["[1]: one" +:+ nl; "[a]: b]: c" +:+ nl])
             ["[1]: one" +:+ nl] ("[a]: b]: c" +:+ nl) [] ValueError eq_refl).
    + constructor; [|constructor]. by eexists.
    + reflexivity.
Defined.

(** ** Lists: items, continuation lines and nested lists *)

Lemma yielded_before_nil r : yielded_before [] r = r.
Proof. by destruct r as [[]|]. Qed.

Lemma yielded_before_app out1 out2 r :
  yielded_before out1 (yielded_before out2 r) = yielded_before (out1 ++ out2) r.
Proof. destruct r as [[]|]; simpl; [|done..]. by rewrite app_assoc. Qed.

Section loop.

Variable List_ : list string -> option (result ListToken).

Lemma build_loop_cons (st : build_state) (line : string) (lines : list string)
    (out : list ListToken) (st' : build_state) :
  build_step List_ st line = Some (Ok (out, st')) ->
  build_loop List_ st (line :: lines) =
  yielded_before out (build_loop List_ st' lines).
Proof. intros Hstep. cbn [build_loop]. rewrite Hstep. by destruct (build_loop _ _ _) as [[]|]. Qed.

Lemma build_step_leader (buffer : list string) (line : string) :
  List_has_valid_leader line = true ->
  build_step List_ (mkState buffer false) line =
  Some (Ok (flushed buffer, mkState [line] false)).
Proof.
  intros Hline. unfold build_step. rewrite Hline.
  by destruct buffer.
Qed.

Lemma build_step_continuation (st : build_state) (line : string) :
  continuation line ->
  build_step List_ st line = Some (Ok ([], buffer_append line st)).
Proof. intros [Hleader Hindent]. unfold build_step. by rewrite Hleader, Hindent. Qed.

Lemma build_loop_continuation (buffer : list string) (tag : bool)
    (lines rest : list string) :
  Forall continuation lines ->
  build_loop List_ (mkState buffer tag) (lines ++ rest) =
  build_loop List_ (mkState (buffer ++ lines) tag) rest.
Proof.
  intros Hlines. revert buffer.
  induction Hlines as [|line lines Hline _ IH]; intros buffer.
  - by rewrite app_nil_r.
  - rewrite <- app_comm_cons.
    rewrite (build_loop_cons _ _ _ _ _ (build_step_continuation _ _ Hline)).
    rewrite yielded_before_nil. unfold buffer_append. simpl.
    rewrite IH. by rewrite <- app_assoc.
Qed.

Lemma build_loop_item (buffer : list string) (g : string * list string)
    (rest : list string) :
  is_item g ->
  build_loop List_ (mkState buffer false) (item_lines g ++ rest) =
  yielded_before (flushed buffer)
    (build_loop List_ (mkState (item_lines g) false) rest).
Proof.
  intros [Hhead Hmore]. unfold item_lines. rewrite <- app_comm_cons.
  rewrite (build_loop_cons _ _ _ _ _ (build_step_leader buffer _ Hhead)).
  by rewrite (build_loop_continuation [g.1] false g.2 rest Hmore).
Qed.

Lemma read_items_flushed (buffer : list string)
    (groups : list (string * list string)) :
  (read_items buffer groups).1 ++ flushed (read_items buffer groups).2 =
  flushed buffer ++ (ListItem_init ∘ item_lines <$> groups).
Proof.
  revert buffer. induction groups as [|g groups IH]; intros buffer; simpl.
  - by rewrite app_nil_r.
  - rewrite <- app_assoc, IH. done.
Qed.

Lemma build_loop_items (buffer : list string)
    (groups : list (string * list string)) (rest : list string) :
  Forall is_item groups ->
  build_loop List_ (mkState buffer false) ((groups ≫= item_lines) ++ rest) =
  yielded_before (read_items buffer groups).1
    (build_loop List_ (mkState (read_items buffer groups).2 false) rest).
Proof.
  intros Hgroups. revert buffer.
  induction Hgroups as [|g groups Hg _ IH]; intros buffer.
  - simpl. by rewrite yielded_before_nil.
  - rewrite bind_cons, <- app_assoc, (build_loop_item _ _ _ Hg), IH.
    simpl. by rewrite yielded_before_app.
Qed.

Lemma build_loop_end (buffer : list string) :
  build_loop List_ (mkState buffer false) [] = Some (Ok (flushed buffer)).
Proof. by destruct buffer. Qed.

(** The loop over items only. *)
Lemma build_list_items (groups : list (string * list string)) :
  Forall is_item groups ->
  List_build_list List_ (groups ≫= item_lines) =
  Some (Ok (ListItem_init ∘ item_lines <$> groups)).
Proof.
  intros Hgroups. unfold List_build_list.
  rewrite <- (app_nil_r (groups ≫= item_lines)).
  rewrite (build_loop_items _ _ _ Hgroups), build_loop_end. simpl.
  by rewrite read_items_flushed.
Qed.

End loop.

Section nested_loop.

Variable List_ : list string -> option (result ListToken).

Lemma build_step_indented_first (buffer : list string) (line : string) :
  List_has_valid_leader line = true ->
  build_step List_ (mkState buffer false) ("    " +:+ line) =
  Some (Ok (flushed buffer, mkState [line] true)).
Proof.
  intros Hline.
  change ("    " +:+ line)
    with (String " " (String " " (String " " (String " " line)))).
  unfold build_step. rewrite List_has_valid_leader_space.
  change (startswith (String " " (String " " (String " " (String " " line))))
            "    ") with true.
  cbv iota. rewrite str_slice_4, Hline. by destruct buffer.
Qed.

Lemma build_step_indented_more (buffer : list string) (line : string) :
  build_step List_ (mkState buffer true) ("    " +:+ line) =
  Some (Ok ([], mkState (buffer ++ [line]) true)).
Proof.
  change ("    " +:+ line)
    with (String " " (String " " (String " " (String " " line)))).
  unfold build_step. rewrite List_has_valid_leader_space.
  change (startswith (String " " (String " " (String " " (String " " line))))
            "    ") with true.
  cbv iota. rewrite str_slice_4. by destruct (List_has_valid_leader line).
Qed.

Lemma build_loop_indented_more (buffer sub rest : list string) :
  build_loop List_ (mkState buffer true)
    (((fun line => "    " +:+ line) <$> sub) ++ rest) =
  build_loop List_ (mkState (buffer ++ sub) true) rest.
Proof.
  revert buffer. induction sub as [|line sub IH]; intros buffer.
  - by rewrite app_nil_r.
  - rewrite fmap_cons, <- app_comm_cons.
    rewrite (build_loop_cons _ _ _ _ _ _ (build_step_indented_more _ _)).
    rewrite yielded_before_nil, IH. by rewrite <- app_assoc.
Qed.

Lemma build_loop_indented (buffer : list string) (line : string)
    (sub rest : list string) :
  List_has_valid_leader line = true ->
  build_loop List_ (mkState buffer false)
    (((fun line => "    " +:+ line) <$> line :: sub) ++ rest) =
  yielded_before (flushed buffer)
    (build_loop List_ (mkState (line :: sub) true) rest).
Proof.
  intros Hline. rewrite fmap_cons, <- app_comm_cons.
  rewrite (build_loop_cons _ _ _ _ _ _ (build_step_indented_first _ _ Hline)).
  by rewrite build_loop_indented_more.
Qed.

Lemma build_loop_nested_end (line : string) (sub : list string) :
  build_loop List_ (mkState (line :: sub) true) [] =
  nested_before (List_ (line :: sub)) (Some (Ok [])).
Proof.
  cbn [build_loop]. unfold clear_buffer, nested_before. simpl.
  by destruct (List_ (line :: sub)) as [[]|].
Qed.

Lemma build_loop_nested_leader (line : string) (sub : list string)
    (head : string) (rest : list string) :
  List_has_valid_leader head = true ->
  build_loop List_ (mkState (line :: sub) true) (head :: rest) =
  nested_before (List_ (line :: sub))
    (build_loop List_ (mkState [] false) (head :: rest)).
Proof.
  intros Hhead.
  rewrite (build_loop_cons _ _ _ _ _ _ (build_step_leader List_ [] _ Hhead)).
  rewrite yielded_before_nil.
  cbn [build_loop]. unfold build_step. rewrite Hhead.
  unfold clear_buffer, nested_before. simpl.
  destruct (List_ (line :: sub)) as [[t|e]|]; [|done..].
  unfold buffer_append. simpl.
  by destruct (build_loop _ _ rest) as [[]|].
Qed.

Lemma build_loop_nested_items (line : string) (sub : list string)
    (after : list (string * list string)) :
  Forall is_item after ->
  build_loop List_ (mkState (line :: sub) true) (after ≫= item_lines) =
  nested_before (List_ (line :: sub))
    (Some (Ok (ListItem_init ∘ item_lines <$> after))).
Proof.
  intros Hafter. destruct after as [|g after].
  - apply build_loop_nested_end.
  - pose proof (build_list_items List_ _ Hafter) as Hitems.
    unfold List_build_list in Hitems. rewrite <- Hitems.
    rewrite bind_cons. unfold item_lines at 1 3. rewrite <- !app_comm_cons.
    apply build_loop_nested_leader.
    by apply Forall_cons_1 in Hafter as [[? _] _].
Qed.

(** The loop over items, an indented block and items again. *)
Lemma build_list_nested (before after : list (string * list string))
    (line : string) (sub : list string) :
  Forall is_item before -> List_has_valid_leader line = true ->
  Forall is_item after ->
  List_build_list List_
    ((before ≫= item_lines)
     ++ ((fun line => "    " +:+ line) <$> line :: sub)
     ++ (after ≫= item_lines)) =
  yielded_before (ListItem_init ∘ item_lines <$> before)
    (nested_before (List_ (line :: sub))
       (Some (Ok (ListItem_init ∘ item_lines <$> after)))).
Proof.
  intros Hbefore Hline Hafter. unfold List_build_list.
  rewrite (build_loop_items _ _ _ _ Hbefore).
  rewrite (build_loop_indented _ _ _ _ Hline).
  rewrite yielded_before_app, read_items_flushed.
  by rewrite (build_loop_nested_items _ _ _ Hafter).
Qed.

End nested_loop.

Lemma total_chars_app (a b : list string) :
  total_chars (a ++ b) = (total_chars a + total_chars b)%nat.
Proof. unfold total_chars. apply sum_list_with_app. Qed.

Lemma total_chars_indented (sub : list string) :
  total_chars ((fun line => "    " +:+ line) <$> sub) =
  (total_chars sub + 4 * length sub)%nat.
Proof.
  unfold total_chars. induction sub as [|line sub IH]; [done|].
  rewrite fmap_cons. cbn [sum_list_with length]. rewrite IH.
  change (String.length ("    " +:+ line)) with (4 + String.length line)%nat.
  lia.
Qed.

Lemma List_init_children (lines : list string) (children : list ListToken) :
  List_build_list (List_init_fuel (total_chars lines)) lines =
    Some (Ok children) ->
  List_init lines =
  (start ← List_read_start lines; Ok (List children start)).
Proof.
  intros Hchildren. unfold List_init. rewrite List_init_fuel_S.
  unfold List_build_list in Hchildren. by rewrite Hchildren.
Qed.

(** X13: a list of lines that each have a leader or continue the line above
    them (no leader, no indent of four spaces) is a list of items: one item
    for every line with a leader, in order, built from that line and the
    continuation lines behind it.  Only reading [start] can make the
    constructor raise. *)
Theorem List_init_items (groups : list (string * list string)) :
  Forall is_item groups ->
  List_init (groups ≫= item_lines) =
  (start ← List_read_start (groups ≫= item_lines);
   Ok (List (ListItem_init ∘ item_lines <$> groups) start)).
Proof.
  intros Hgroups. apply List_init_children. by apply build_list_items.
Qed.

Lemma List_init_items_witness :
  List_init ([("1. a" +:+ nl, ["more" +:+ nl]); ("2. b" +:+ nl, [])]
             ≫= item_lines) =
  (start ← List_read_start
             ([("1. a" +:+ nl, ["more" +:+ nl]); ("2. b" +:+ nl, [])]
              ≫= item_lines);
   Ok (List (ListItem_init ∘ item_lines
               <$> [("1. a" +:+ nl, ["more" +:+ nl]); ("2. b" +:+ nl, [])])
            start)).
Proof.
  apply (List_init_items
           [("1. a" +:+ nl, ["more" +:+ nl]); ("2. b" +:+ nl, [])]).
  repeat constructor.
Defined.

(** X14: lines indented by four spaces, the first of them with a leader
    behind the indent, become one nested list between the items before and
    after them.  The nested list is what [List] builds from these lines
    without their indent; when that raises, so does the list around
    it. *)
Theorem List_init_nested (before after : list (string * list string))
    (line : string) (sub : list string) :
  Forall is_item before -> List_has_valid_leader line = true ->
  Forall is_item after ->
  let lines := (before ≫= item_lines)
               ++ ((fun line => "    " +:+ line) <$> line :: sub)
               ++ (after ≫= item_lines) in
  List_init lines =
  (nested ← List_init (line :: sub);
   start ← List_read_start lines;
   Ok (List ((ListItem_init ∘ item_lines <$> before)
             ++ nested :: (ListItem_init ∘ item_lines <$> after)) start)).
Proof.
  intros Hbefore Hline Hafter lines.
  assert (total_chars (line :: sub) < total_chars lines)%nat as Hfuel.
  { unfold lines. rewrite !total_chars_app, total_chars_indented.
    cbn [length]. lia. }
  pose proof (build_list_nested (List_init_fuel (total_chars lines))
                before after line sub Hbefore Hline Hafter) as Hloop.
  fold lines in Hloop.
  rewrite (List_init_fuel_enough _ _ Hfuel) in Hloop.
  destruct (List_init (line :: sub)) as [nested|e] eqn:Hnested.
  - by rewrite (List_init_children lines _ Hloop).
  - unfold List_init at 1. rewrite List_init_fuel_S.
    unfold List_build_list in Hloop. by rewrite Hloop.
Qed.

Lemma List_init_nested_witness :
  List_init (([("- a" +:+ nl, [])] ≫= item_lines)
             ++ ((fun line => "    " +:+ line)
                   <$> ("- b" +:+ nl) :: ["- c" +:+ nl])
             ++ ([("- d" +:+ nl, [])] ≫= item_lines)) =
  (nested ← List_init (("- b" +:+ nl) :: ["- c" +:+ nl]);
   start ← List_read_start
             (([("- a" +:+ nl, [])] ≫= item_lines)
              ++ ((fun line => "    " +:+ line)
                    <$> ("- b" +:+ nl) :: ["- c" +:+ nl])
              ++ ([("- d" +:+ nl, [])] ≫= item_lines));
   Ok (List ((ListItem_init ∘ item_lines <$> [("- a" +:+ nl, [])])
             ++ nested
                :: (ListItem_init ∘ item_lines <$> [("- d" +:+ nl, [])]))
            start)).
Proof.
  apply (List_init_nested [("- a" +:+ nl, [])] [("- d" +:+ nl, [])]
           ("- b" +:+ nl) ["- c" +:+ nl]).
  - repeat constructor.
  - reflexivity.
  - repeat constructor.
Defined.

(** ** ListItem *)

Lemma rstrip_empty_lstrip (s : string) :
  rstrip s = EmptyString -> lstrip s = EmptyString.
Proof.
  induction s as [|c s IH]; [done|]. simpl.
  destruct (rstrip s); [|done].
  destruct (isspace c); [|done]. intros _. by apply IH.
Qed.

Lemma lstrip_rstrip (s : string) : lstrip (rstrip s) = rstrip (lstrip s).
Proof.
  induction s as [|c s IH]; [done|].
  destruct (isspace c) eqn:Hc.
  - cbn [lstrip rstrip]. rewrite Hc, <- IH.
    destruct (rstrip s); simpl; by rewrite ?Hc.
  - rewrite (rstrip_cons c s Hc). cbn [lstrip]. rewrite Hc.
    by rewrite (rstrip_cons c s Hc).
Qed.

Lemma strip_rstrip (s : string) : strip (rstrip s) = strip s.
Proof. unfold strip. by rewrite lstrip_rstrip, rstrip_rstrip. Qed.

Lemma rstrip_marker (marker s : string) :
  Forall (fun c => isspace c = false) (chars marker) ->
  rstrip (marker +:+ s) = marker +:+ rstrip s.
Proof.
  induction marker as [|c marker IH]; [done|].
  intros [Hc Hmarker]%Forall_cons_1.
  change (String c marker +:+ ?t) with (String c (marker +:+ t)).
  by rewrite (rstrip_cons _ _ Hc), IH.
Qed.

Lemma lstrip_marker (marker s : string) :
  is_marker marker -> lstrip (marker +:+ s) = marker +:+ s.
Proof.
  intros [Hne Hmarker]. destruct marker as [|c marker]; [done|].
  apply Forall_cons_1 in Hmarker as [Hc _].
  change (String c marker +:+ s) with (String c (marker +:+ s)).
  cbn [lstrip]. by rewrite Hc.
Qed.

Lemma append_empty (s : string) : s +:+ EmptyString = s.
Proof.
  induction s as [|c s IH]; [done|].
  change (String c s +:+ EmptyString) with (String c (s +:+ EmptyString)).
  by rewrite IH.
Qed.

Lemma strip_marker (marker s : string) :
  is_marker marker -> strip (marker +:+ s) = marker +:+ rstrip s.
Proof.
  intros Hmarker. unfold strip. rewrite (lstrip_marker _ _ Hmarker).
  apply rstrip_marker, Hmarker.
Qed.

Lemma cut_space_marker (marker s : string) :
  Forall (fun c => isspace c = false) (chars marker) ->
  cut " " (marker +:+ String " " s) = Some (marker, s).
Proof.
  induction marker as [|c marker IH]; [done|].
  intros [Hc Hmarker]%Forall_cons_1.
  change (String c marker +:+ ?t) with (String c (marker +:+ t)).
  cbn [cut]. rewrite (IH Hmarker).
  replace (startswith (String c (marker +:+ String " " s)) " ") with false;
    [done|].
  cbn [startswith]. destruct (Ascii.eqb_spec " " c) as [<-|]; [done|].
  done.
Qed.

Lemma cut_space_none (marker : string) :
  Forall (fun c => isspace c = false) (chars marker) ->
  cut " " marker = None.
Proof.
  induction marker as [|c marker IH]; [done|].
  intros [Hc Hmarker]%Forall_cons_1.
  cbn [cut]. rewrite (IH Hmarker).
  replace (startswith (String c marker) " ") with false; [done|].
  cbn [startswith]. destruct (Ascii.eqb_spec " " c) as [<-|]; [done|].
  done.
Qed.

(** X12: the text of an item of one line is what follows the first space
    behind its marker, trimmed; it is empty when only white space follows
    the marker (the IndexError of the missing field is caught). *)
Theorem ListItem_init_text (marker : string) :
  is_marker marker ->
  (forall text,
      ListItem_init [marker +:+ String " " text] =
      ListItem (tokenize_inner (strip text)))
  /\ (forall blank,
        rstrip blank = EmptyString ->
        ListItem_init [marker +:+ blank] =
        ListItem (tokenize_inner EmptyString)).
Proof.
  intros Hmarker. pose proof Hmarker as [_ Hchars]. split.
  - intros text. unfold ListItem_init. cbn [fmap list_fmap join].
    rewrite (strip_marker _ _ Hmarker).
    destruct (rstrip (String " " text)) as [|c r] eqn:Hr.
    + (* nothing but white space behind the marker *)
      simpl in Hr. destruct (rstrip text) eqn:Htext; [|done].
      rewrite append_empty.
      cbn [split_max]. rewrite (cut_space_none _ Hchars). simpl.
      unfold strip. by rewrite (rstrip_empty_lstrip _ Htext).
    + simpl in Hr. destruct (rstrip text) as [|d r'] eqn:Htext; [done|].
      injection Hr as <- <-.
      cbn [split_max]. rewrite (cut_space_marker _ _ Hchars). simpl.
      by rewrite <- Htext, strip_rstrip.
  - intros blank Hblank. unfold ListItem_init. cbn [fmap list_fmap join].
    rewrite (strip_marker _ _ Hmarker), Hblank.
    rewrite append_empty.
    cbn [split_max]. by rewrite (cut_space_none _ Hchars).
Qed.

Lemma ListItem_init_text_witness :
  (forall text,
      ListItem_init ["12." +:+ String " " text] =
      ListItem (tokenize_inner (strip text)))
  /\ (forall blank,
        rstrip blank = EmptyString ->
        ListItem_init ["12." +:+ blank] = ListItem (tokenize_inner EmptyString)).
Proof.
  apply (ListItem_init_text "12.").
  split; [discriminate|]. repeat constructor.
Defined.

(** ** Footnote runs and the matchers in front of FootnoteBlock *)

Lemma strip_bracket (line : string) :
  startswith (strip line) "[" = true ->
  exists c rest, line = String c rest /\ (c = "["%char \/ isspace c = true).
Proof.
  destruct line as [|c rest]; [done|].
  intros Hstrip. exists c, rest. split; [done|].
  destruct (isspace c) eqn:Hc; [by right|left].
  unfold strip in Hstrip. cbn [lstrip] in Hstrip. rewrite Hc in Hstrip.
  rewrite (rstrip_cons _ _ Hc) in Hstrip. cbn [startswith] in Hstrip.
  by destruct (Ascii.eqb_spec "[" c).
Qed.

(** A character that is a bracket or white space is not [other]. *)
Lemma bracket_or_space_neq (c other : ascii) :
  c = "["%char \/ isspace c = true ->
  other <> "["%char -> isspace other = false ->
  Ascii.eqb other c = false.
Proof.
  intros [->|Hc] Hbracket Hspace; apply Ascii.eqb_neq; congruence.
Qed.

Lemma slice_but_last_cons {A} (a : A) (l : list A) :
  l <> [] -> slice (a :: l) None (Some (-1)) = a :: slice l None (Some (-1)).
Proof.
  intros Hl. destruct (exists_last Hl) as (pre & x & ->).
  rewrite (app_comm_cons pre [x] a). by rewrite !slice_but_last.
Qed.

Lemma List_has_valid_leader_bracket (rest : string) :
  List_has_valid_leader (String "[" rest) = false.
Proof.
  unfold List_has_valid_leader.
  replace (startswith_any (String "[" rest) ["+ "; "- "; "* "]) with false
    by reflexivity.
  cbn [orb]. unfold leader_of. cbn [split_max cut].
  replace (startswith (String "[" rest) " ") with false by reflexivity.
  assert (exists leader,
             default EmptyString
               (head match
                       match cut " " rest with
                       | Some (a, b) => Some (String "[" a, b)
                       | None => None
                       end
                     with
                     | Some (a, b) => [a; b]
                     | None => [String "[" rest]
                     end) = String "[" leader) as [leader ->]
    by (destruct (cut " " rest) as [[a b]|]; simpl; eauto).
  unfold isdigit, str_slice. cbn [chars String.list_ascii_of_string].
  fold (chars leader).
  destruct (chars leader) as [|d l] eqn:Hl; [reflexivity|].
  rewrite slice_but_last_cons by done. reflexivity.
Qed.

(** X11: a run [FootnoteBlock.match] accepts is a footnote block unless all
    of its lines are indented by four spaces: of the six classes in front
    of [FootnoteBlock] in [_token_types], [Heading], [Quote], [Separator],
    [List] and [Table] reject every such run, and [BlockCode] rejects it
    when one of its lines does not start with four spaces. *)
Theorem FootnoteBlock_match_not_shadowed (line : string)
    (lines : list string) :
  FootnoteBlock_match (line :: lines) = Ok true ->
  Heading_match (line :: lines) = Ok false
  /\ Quote_match (line :: lines) = Ok false
  /\ Separator_match (line :: lines) = Ok false
  /\ List_match (line :: lines) = Ok false
  /\ Table_match (line :: lines) = Ok false
  /\ BlockCode_match (line :: lines) =
     Ok (forallb (fun l => startswith l "    ") (line :: lines)).
Proof.
  intros Hmatch.
  assert (forallb (fun l => let content := strip l in
                            startswith content "["
                            && negb (find content "]:" =? -1))
            (line :: lines) = true) as Hrun
    by (unfold FootnoteBlock_match in Hmatch;
        exact (f_equal (fun r => match r with Ok b => b | Raise _ => false end)
                 Hmatch)).
  assert (Forall (fun l => startswith (strip l) "[" = true) (line :: lines))
    as Hlines.
  { apply Forall_forall. intros l Hl. apply list_elem_of_In in Hl.
    pose proof (proj1 (forallb_forall _ _) Hrun l Hl) as Hl'.
    cbv zeta in Hl'. by apply andb_prop in Hl' as [? _]. }
  assert (forall l other rest,
             l ∈ line :: lines -> other <> "["%char -> isspace other = false ->
             startswith l (String other rest) = false) as Hother.
  { intros l other rest Hl Hbracket Hspace.
    rewrite Forall_forall in Hlines.
    destruct (strip_bracket l (Hlines l Hl)) as (c & s & -> & Hc).
    cbn [startswith]. by rewrite (bracket_or_space_neq c other Hc). }
  pose proof (Hother line) as Hfirst.
  specialize (fun other rest => Hfirst other rest ltac:(by left)).
  repeat split.
  - (* Heading *)
    unfold Heading_match. destruct lines as [|l1 lines].
    + cbn [length Nat.eqb]. change (getitem [line] 0) with (Ok line).
      cbn [mbind result_bind bind]. by rewrite Hfirst.
    + cbn [length Nat.eqb Nat.ltb Nat.leb mbind result_bind bind].
      destruct (exists_last (l:=line :: l1 :: lines) ltac:(done))
        as (pre & last & Hlast).
      rewrite Hlast, getitem_last. cbn [mbind result_bind bind].
      assert (last ∈ line :: l1 :: lines) as Hin
        by (rewrite Hlast; apply elem_of_app; right; by left).
      by rewrite !(Hother last _ _ Hin).
  - (* Quote *)
    unfold Quote_match. change (getitem (line :: lines) 0) with (Ok line).
    cbn [mbind result_bind bind]. by rewrite Hfirst.
  - (* Separator *)
    unfold Separator_match. destruct lines; [|done]. f_equal.
    apply Forall_cons_1 in Hlines as [Hline _].
    destruct (strip_bracket line Hline) as (c & s & -> & Hc).
    unfold Separator_acceptable_patterns.
    cbv [existsb String.append String.eqb].
    rewrite (Ascii.eqb_sym c "-"), (Ascii.eqb_sym c "*"), (Ascii.eqb_sym c "=").
    by rewrite !(bracket_or_space_neq c _ Hc).
  - (* List *)
    unfold List_match. change (getitem (line :: lines) 0) with (Ok line).
    cbn [mbind result_bind bind]. f_equal.
    apply Forall_cons_1 in Hlines as [Hline _].
    apply startswith_cons in Hline as (s & -> & _).
    apply List_has_valid_leader_bracket.
  - (* Table *)
    apply Forall_cons_1 in Hlines as [Hline _].
    destruct (strip_bracket line Hline) as (c & s & -> & Hc).
    cbn [Table_match]. rewrite str_getitem_first.
    cbn [mbind result_bind bind].
    rewrite (Ascii.eqb_sym c "|").
    by rewrite (bracket_or_space_neq c "|" Hc).
  - (* BlockCode *)
    unfold BlockCode_match. change (getitem (line :: lines) 0) with (Ok line).
    cbn [mbind result_bind bind]. by rewrite Hfirst.
Qed.

Lemma FootnoteBlock_match_not_shadowed_witness :
  Heading_match ["[1]: one" +:+ nl; " [2]: two" +:+ nl] = Ok false
  /\ Quote_match ["[1]: one" +:+ nl; " [2]: two" +:+ nl] = Ok false
  /\ Separator_match ["[1]: one" +:+ nl; " [2]: two" +:+ nl] = Ok false
  /\ List_match ["[1]: one" +:+ nl; " [2]: two" +:+ nl] = Ok false
  /\ Table_match ["[1]: one" +:+ nl; " [2]: two" +:+ nl] = Ok false
  /\ BlockCode_match ["[1]: one" +:+ nl; " [2]: two" +:+ nl] =
     Ok (forallb (fun l => startswith l "    ")
           ["[1]: one" +:+ nl; " [2]: two" +:+ nl]).
Proof.
  apply (FootnoteBlock_match_not_shadowed
           ("[1]: one" +:+ nl) [" [2]: two" +:+ nl]).
  reflexivity.
Defined.

(** ** Table and TableRow *)

Lemma TableRow_children_missing (cells : list string)
    (aligns : list (option Z)) :
  (length cells < length aligns)%nat ->
  traverse (fun p : option string * option Z =>
              match p.1 with
              | Some cell => Ok (TableCell_init (strip cell) p.2)
              | None => Raise AttributeError
              end)
           (zip_longest None None (Some <$> cells) aligns) =
  Raise AttributeError.
Proof.
  revert aligns. induction cells as [|cell cells IH]; intros aligns Hlen.
  - destruct aligns; [simpl in Hlen; lia|done].
  - destruct aligns as [|align aligns]; [simpl in Hlen; lia|].
    rewrite fmap_cons. cbn [zip_longest traverse].
    simpl in Hlen. rewrite (IH aligns) by lia. done.
Qed.

(** X19: the children of a row can be consumed exactly when the row has at
    least as many cells as alignments; with fewer cells, consuming them
    raises AttributeError.  A row always has a cell, so a row given one
    alignment or none never raises. *)
Theorem TableRow_children_raise (line : string)
    (row_align : option (list (option Z))) :
  let row := TableRow_init line row_align in
  (TableRow_children row = Raise AttributeError <->
   (length (TableRow_cells line) < length (TableRow_row_align row))%nat)
  /\ (1 <= length (TableRow_cells line))%nat.
Proof.
  intros row. unfold row, TableRow_init.
  cbn [TableRow_children TableRow_row_align].
  set (aligns := match row_align with Some a => a | None => [None] end).
  split; [split|].
  - intros Hraise.
    destruct (Nat.lt_ge_cases (length (TableRow_cells line)) (length aligns))
      as [|Hge]; [done|].
    by rewrite (TableRow_children_padded _ _ Hge) in Hraise.
  - apply TableRow_children_missing.
  - unfold TableRow_cells, split.
    destruct (String.length _); simpl; [lia|].
    destruct (cut _ _) as [[]|]; simpl; lia.
Qed.

(** X18: [Table.__init__] raises exactly on lists of fewer than two lines,
    and then IndexError.  Of the table it builds: the rows are the lines it
    leaves in the list, one row each and in order, every row with the
    alignments of the table; with a header the list has lost one line, and
    without one the list is as it was and the alignments are [[None]]. *)
Theorem Table_init_rows (lines : list string) :
  ((length lines < 2)%nat -> Table_init lines = Raise IndexError)
  /\ ((2 <= length lines)%nat ->
      exists t after,
        Table_init lines = Ok (t, after)
        /\ Table_children t =
           (fun line => TableRow_init line (Some (Table_column_align t)))
             <$> after
        /\ (Table_has_header t = true ->
            after = delete 1%nat lines
            /\ (length after + 1 = length lines)%nat)
        /\ (Table_has_header t = false ->
            after = lines /\ Table_column_align t = [None])).
Proof.
  split; [apply Table_init_raises|].
  intros Hlen. unfold Table_init.
  rewrite (getitem_lookup lines 1 : getitem lines 1 = _).
  destruct (lookup_lt_is_Some_2 lines 1%nat) as [l1 Hl1]; [lia|].
  rewrite Hl1. cbn [mbind result_bind bind].
  destruct (negb (find l1 "---" =? -1)).
  - unfold pop. rewrite Hl1. cbn [mbind result_bind bind fst snd].
    do 2 eexists. split; [reflexivity|]. cbn.
    split; [reflexivity|]. split; [|done].
    intros _. split; [done|]. rewrite length_delete by eauto. lia.
  - do 2 eexists. split; [reflexivity|]. cbn.
    split; [reflexivity|]. split; [done|]. by intros _.
Qed.

Lemma Table_init_rows_witness :
  exists t after,
    Table_init ["| a | b |" +:+ nl; "| :--- | ---: |" +:+ nl;
                "| 1 | 2 |" +:+ nl] = Ok (t, after)
    /\ Table_children t =
       (fun line => TableRow_init line (Some (Table_column_align t)))
         <$> after
    /\ (Table_has_header t = true ->
        after = delete 1%nat ["| a | b |" +:+ nl; "| :--- | ---: |" +:+ nl;
                              "| 1 | 2 |" +:+ nl]
        /\ (length after + 1 =
            length ["| a | b |" +:+ nl; "| :--- | ---: |" +:+ nl;
                    "| 1 | 2 |" +:+ nl])%nat)
    /\ (Table_has_header t = false ->
        after = ["| a | b |" +:+ nl; "| :--- | ---: |" +:+ nl;
                 "| 1 | 2 |" +:+ nl]
        /\ Table_column_align t = [None]).
Proof.
  apply (proj2 (Table_init_rows ["| a | b |" +:+ nl; "| :--- | ---: |" +:+ nl;
                                 "| 1 | 2 |" +:+ nl])).
  simpl. lia.
Defined.

(** The table of the spec: a header, the alignments left and right. *)
Example Table_init_alignment :
  exists children,
    Table_init ["| a | b |" +:+ nl; "| :--- | ---: |" +:+ nl;
                "| 1 | 2 |" +:+ nl] =
    Ok (mkTable true [None; Some 1] children,
        ["| a | b |" +:+ nl; "| 1 | 2 |" +:+ nl]).
Proof. eexists. reflexivity. Qed.

(** ** The empty list of lines *)

(** X21: on the empty list [Heading.match] and [Separator.match] reject,
    [Table.match] and [FootnoteBlock.match] accept, since their loops have
    nothing to reject, and [Quote.match], [BlockCode.match] and
    [List.match] raise IndexError on [lines[0]].  Of the constructors,
    [Quote], [Paragraph], [Separator] and [FootnoteBlock] build an empty
    token, and [Heading], [BlockCode], [List] and [Table] raise
    IndexError. *)
Theorem empty_list_of_lines :
  (Heading_match [] = Ok false /\ Separator_match [] = Ok false
   /\ Table_match [] = Ok true /\ FootnoteBlock_match [] = Ok true
   /\ Quote_match [] = Raise IndexError
   /\ BlockCode_match [] = Raise IndexError
   /\ List_match [] = Raise IndexError)
  /\ (Quote_init [] = Ok (mkQuote [])
      /\ Paragraph_init [] = Ok (mkParagraph (tokenize_inner EmptyString))
      /\ Separator_init [] = Ok (mkSeparator [])
      /\ FootnoteBlock_init [] = Ok (mkFootnoteBlock [])
      /\ Heading_init [] = Raise IndexError
      /\ BlockCode_init [] = Raise IndexError
      /\ List_init [] = Raise IndexError
      /\ Table_init [] = Raise IndexError).
Proof. repeat split; reflexivity. Qed.

(** ** Separator *)

(** X20: a run [Separator.match] accepts is one of the four lines [---],
    [* * *], [***] and [===], and none of the three classes in front of
    [Separator] in [_token_types] accepts it: the separators are not taken
    by [Heading], [Quote] or [BlockCode]. *)
Theorem Separator_match_not_shadowed (lines : list string) :
  Separator_match lines = Ok true ->
  (exists line, lines = [line] /\ line ∈ Separator_acceptable_patterns)
  /\ Heading_match lines = Ok false
  /\ Quote_match lines = Ok false
  /\ BlockCode_match lines = Ok false
  /\ _token_types =
     [Heading_cls; Quote_cls; BlockCode_cls; Separator_cls; List_cls;
      Table_cls; FootnoteBlock_cls].
Proof.
  unfold Separator_match.
  destruct lines as [|line [|]]; [done| |done].
  intros [= Hpattern].
  repeat (apply orb_prop in Hpattern as [Heq|Hpattern];
          [apply String.eqb_eq in Heq as ->;
           (split; [eexists; split; [reflexivity|]|by repeat split]);
           apply list_elem_of_In; simpl; tauto|]).
  done.
Qed.

Lemma Separator_match_not_shadowed_witness :
  (exists line, ["* * *" +:+ nl] = [line]
                /\ line ∈ Separator_acceptable_patterns)
  /\ Heading_match ["* * *" +:+ nl] = Ok false
  /\ Quote_match ["* * *" +:+ nl] = Ok false
  /\ BlockCode_match ["* * *" +:+ nl] = Ok false
  /\ _token_types =
     [Heading_cls; Quote_cls; BlockCode_cls; Separator_cls; List_cls;
      Table_cls; FootnoteBlock_cls].
Proof. apply (Separator_match_not_shadowed ["* * *" +:+ nl]). reflexivity. Defined.

(** ** Lists: a first line that starts with a space *)

(** X15: a line that starts with a space has no valid leader, as the
    docstring of [has_valid_leader] says, and a list whose first line
    starts with a space has [start] [None], whatever follows the space:
    [List.match] trims the line before it looks for the leader, the
    constructor does not. *)
Theorem List_first_line_space (rest : string) (lines : list string) :
  List_has_valid_leader (String " " rest) = false
  /\ List_read_start (String " " rest :: lines) = Ok None
  /\ List_match [" 1. a" +:+ nl] = Ok true
  /\ List_init [" 1. a" +:+ nl] =
     Ok (List [ListItem (tokenize_inner "a")] None).
Proof. repeat split; reflexivity. Qed.

(** ** Termination of List.__init__ *)

(** X16: [List.__init__] terminates.  A nested list is built from lines
    that have at least four characters fewer than the lines of the list
    around it, so the nesting is bounded by the number of characters: fuel
    beyond that number is never used up, and the outcome is the same for
    every such fuel. *)
Theorem List_init_terminates (fuel : nat) (lines : list string) :
  (total_chars lines < fuel)%nat ->
  List_init_fuel fuel lines = Some (List_init lines).
Proof. apply List_init_fuel_enough. Qed.

Lemma List_init_terminates_witness :
  List_init_fuel 40 ["- a" +:+ nl; "    - b" +:+ nl; "- c" +:+ nl] =
  Some (List_init ["- a" +:+ nl; "    - b" +:+ nl; "- c" +:+ nl]).
Proof.
  apply (List_init_terminates 40
           ["- a" +:+ nl; "    - b" +:+ nl; "- c" +:+ nl]).
  vm_compute. lia.
Defined.
